(** * EliteUnifiedTrade: balance engine, transaction state machine,
      investment allocator and chat connection registry

    A shallow embedding of [server/storage.ts] (class [DatabaseStorage]),
    of the route handlers of [registerRoutes] and of the WebSocket handlers
    registered next to them, with the tables of [shared/schema.ts] as
    finite maps keyed by their serial primary key.

    Conventions of the embedding.
    - Money.  The columns [decimal(10,2)] hold amounts with two decimals
      and at most eight digits before the point; a stored amount is the
      integer number of cents, and the literal [50] of the routes is
      [5000].  An amount of a request body is a JSON number or a JSON
      string ([Amount]); [+], [<] and unary minus act on it as in
      JavaScript, so [Number(user.balance) + amount] is addition for a
      number and concatenation for a string.
    - Time.  Every [new Date()] of a request reads the argument [now].
    - Exceptions.  A storage method is a state transformer that returns
      either a value or the exception it throws; the state it reached when
      it threw is kept, since no route opens a database transaction.
    - Journal.  Every INSERT and UPDATE statement of a request that the
      database carries out is appended to [journal], in the order of
      execution; the statements [updateUserBalance] issues are also
      appended to [engine]. *)

From stdpp Require Import gmap strings list fin_maps pretty.
From Stdlib Require Import ZArith NArith Lia Ascii.

Open Scope Z_scope.

(** ** Schema ([shared/schema.ts]) *)

Inductive Role := RoleUser | RoleAdmin.
Inductive TransactionType := Deposit | Withdrawal | Profit.
Inductive TransactionStatus := Pending | Completed | Rejected | Failed.
Inductive MessageStatus := Unread | Read | Replied.
Inductive PlanStatus := Active | Inactive.

Global Instance Role_eq_dec : EqDecision Role.
Proof. solve_decision. Defined.
Global Instance TransactionType_eq_dec : EqDecision TransactionType.
Proof. solve_decision. Defined.
Global Instance TransactionStatus_eq_dec : EqDecision TransactionStatus.
Proof. solve_decision. Defined.
Global Instance MessageStatus_eq_dec : EqDecision MessageStatus.
Proof. solve_decision. Defined.

(** Rows carry the columns the modelled requests read or write; the key of
    the table is the [id] column. *)
Record User := mkUser {
  balance : Z;
  role : Role;
  user_updatedAt : Z }.

Record InvestmentPlan := mkPlan {
  minAmount : Z;
  maxAmount : Z;
  plan_status : PlanStatus }.

Record Investment := mkInvestment {
  inv_userId : Z;
  inv_planId : Z;
  inv_amount : Z;
  inv_startDate : Z;
  inv_isActive : bool }.

Record Transaction := mkTransaction {
  tx_userId : Z;
  tx_type : TransactionType;
  tx_amount : Z;
  tx_currency : option string;
  tx_walletAddress : option string;
  tx_reason : option string;
  tx_status : TransactionStatus;
  tx_updatedAt : Z }.

Record ChatMessage := mkChatMessage {
  msg_userId : Z;
  msg_content : string;
  msg_status : MessageStatus;
  msg_adminResponse : option string;
  msg_adminId : option Z }.

(** ** Amounts of a request body *)

Inductive Digit := Zero | One | Two | Three | Four | Five | Six | Seven | Eight | Nine.

Definition digit_value (d : Digit) : Z :=
  match d with
  | Zero => 0 | One => 1 | Two => 2 | Three => 3 | Four => 4
  | Five => 5 | Six => 6 | Seven => 7 | Eight => 8 | Nine => 9
  end.

(** The digit of a value between 0 and 9. *)
Definition digit_of_value (v : Z) : Digit :=
  match v with
  | 0 => Zero | 1 => One | 2 => Two | 3 => Three | 4 => Four
  | 5 => Five | 6 => Six | 7 => Seven | 8 => Eight | _ => Nine
  end.

(** The number a list of digits writes. *)
Definition digits_value (ds : list Digit) : Z :=
  foldl (fun acc d => 10 * acc + digit_value d) 0 ds.

(** The decimal digits of a natural number, without leading zero. *)
Fixpoint uint_digits (u : Init.Decimal.uint) : list Digit :=
  match u with
  | Init.Decimal.Nil => []
  | Init.Decimal.D0 r => Zero :: uint_digits r
  | Init.Decimal.D1 r => One :: uint_digits r
  | Init.Decimal.D2 r => Two :: uint_digits r
  | Init.Decimal.D3 r => Three :: uint_digits r
  | Init.Decimal.D4 r => Four :: uint_digits r
  | Init.Decimal.D5 r => Five :: uint_digits r
  | Init.Decimal.D6 r => Six :: uint_digits r
  | Init.Decimal.D7 r => Seven :: uint_digits r
  | Init.Decimal.D8 r => Eight :: uint_digits r
  | Init.Decimal.D9 r => Nine :: uint_digits r
  end.

(** What follows the whole part of a decimal text: no point, or a point
    and one or two digits. *)
Inductive Fraction := NoPoint | Tenths (d : Digit) | Hundredths (d1 d2 : Digit).

Definition fraction_digits (f : Fraction) : list Digit :=
  match f with
  | NoPoint => []
  | Tenths d => [d]
  | Hundredths d1 d2 => [d1; d2]
  end.

Definition fraction_cents (f : Fraction) : Z :=
  match f with
  | NoPoint => 0
  | Tenths d => 10 * digit_value d
  | Hundredths d1 d2 => 10 * digit_value d1 + digit_value d2
  end.

(** A string that is a decimal literal with at most two decimals: an
    optional minus sign, one digit or more, then the fraction.  ["50"] is
    [mkDecimalText false Five [Zero] NoPoint]. *)
Record DecimalText := mkDecimalText {
  text_minus : bool;
  text_first : Digit;
  text_rest : list Digit;
  text_fraction : Fraction }.

Definition text_whole (t : DecimalText) : list Digit := text_first t :: text_rest t.

(** The number of cents a decimal text writes. *)
Definition text_cents (t : DecimalText) : Z :=
  let v := 100 * digits_value (text_whole t) + fraction_cents (text_fraction t) in
  if text_minus t then - v else v.

(** [amount] of [req.body]: a JSON number, given by its number of cents,
    or a JSON string that is a decimal text.  The numbers covered are
    those with a whole number of cents, the strings those of
    [DecimalText]; the forms of the client send a number, [db/seed.ts]
    gives amounts as strings. *)
Inductive Amount := Num (cents : Z) | Str (text : DecimalText).

(** [Number(amount)], what [<], [>] and unary minus read: in cents. *)
Definition to_number (amount : Amount) : Z :=
  match amount with
  | Num cents => cents
  | Str text => text_cents text
  end.

(** [!amount]: the number zero is falsy; a decimal text has at least one
    character, so it is truthy, ["0"] included. *)
Definition falsy (amount : Amount) : bool :=
  match amount with
  | Num cents => cents =? 0
  | Str _ => false
  end.

(** [-amount]: a number. *)
Definition negate (amount : Amount) : Amount := Num (- to_number amount).

(** [Number(balance).toString()] for a balance of the column: the whole
    part without leading zeros, then the decimals without trailing
    zeros. *)
Definition number_text (cents : Z) : DecimalText :=
  let a := Z.abs cents in
  let whole := uint_digits (N.to_uint (Z.to_N (a `div` 100))) in
  let f := a `mod` 100 in
  mkDecimalText (cents <? 0) (hd Zero whole) (tl whole)
    (if f =? 0 then NoPoint
     else if f `mod` 10 =? 0 then Tenths (digit_of_value (f `div` 10))
     else Hundredths (digit_of_value (f `div` 10)) (digit_of_value (f `mod` 10))).

(** The value of [Number(user.balance) + amount]: a number, or the string
    the concatenation gives.  That string reads as a decimal (sign, whole
    digits, digits after the point, none when there is no point), or it
    is not a numeral: it has two points or an inner minus sign. *)
Inductive JsSum :=
| Sum (cents : Z)
| Joined (minus : bool) (whole fraction : list Digit)
| Malformed.

Definition plus (balance : Z) (amount : Amount) : JsSum :=
  match amount with
  | Num delta => Sum (balance + delta)
  | Str text =>
      let b := number_text balance in
      if text_minus text then Malformed
      else
        match text_fraction b, text_fraction text with
        | NoPoint, f =>
            Joined (text_minus b) (text_whole b ++ text_whole text) (fraction_digits f)
        | fb, NoPoint =>
            Joined (text_minus b) (text_whole b) (fraction_digits fb ++ text_whole text)
        | _, _ => Malformed
        end
  end.

(** [newBalance < 0]; a string that is not a numeral reads as [NaN], and
    the comparison is false. *)
Definition lt_zero (v : JsSum) : bool :=
  match v with
  | Sum cents => cents <? 0
  | Joined minus whole fraction => minus && negb (digits_value (whole ++ fraction) =? 0)
  | Malformed => false
  end.

(** What a [decimal(10,2)] column does with a number of cents: it is
    stored when fewer than nine digits stand before the point, otherwise
    the statement fails (numeric field overflow). *)
Definition numeric_10_2 (cents : Z) : option Z :=
  if (-10000000000 <? cents) && (cents <? 10000000000) then Some cents else None.

(** The balance the column stores for [newBalance.toString()]: the
    database reads the text, rounds it to two decimals, half away from
    zero, and checks the precision; [None] when it refuses the text. *)
Definition stored (v : JsSum) : option Z :=
  match v with
  | Sum cents => numeric_10_2 cents
  | Joined minus whole fraction =>
      let scale := 10 ^ Z.of_nat (length fraction) in
      let cents := (100 * digits_value (whole ++ fraction) + scale `div` 2) `div` scale in
      numeric_10_2 (if minus then - cents else cents)
  | Malformed => None
  end.

(** ** The database *)

(** One statement that changes a table. *)
Inductive Write :=
| WUserBalance (id newBalance now : Z)
| WInsertTransaction (id : Z) (row : Transaction)
| WTransactionStatus (id : Z) (st : TransactionStatus) (now : Z)
| WInsertInvestment (id : Z) (row : Investment)
| WInsertChatMessage (id : Z) (row : ChatMessage).

Record Db := mkDb {
  users : gmap Z User;
  investmentPlans : gmap Z InvestmentPlan;
  investments : gmap Z Investment;
  transactions : gmap Z Transaction;
  chatMessages : gmap Z ChatMessage;
  investments_seq : Z;
  transactions_seq : Z;
  chatMessages_seq : Z;
  journal : list Write;
  engine : list Write }.

Definition set_balance (newBalance now : Z) (u : User) : User :=
  mkUser newBalance (role u) now.

Definition set_status (st : TransactionStatus) (now : Z) (t : Transaction) : Transaction :=
  mkTransaction (tx_userId t) (tx_type t) (tx_amount t) (tx_currency t)
    (tx_walletAddress t) (tx_reason t) st now.

(** The effect of one statement on the tables and sequences. *)
Definition apply_write (w : Write) (s : Db) : Db :=
  match w with
  | WUserBalance id b now =>
      mkDb (alter (set_balance b now) id (users s)) (investmentPlans s) (investments s)
        (transactions s) (chatMessages s)
        (investments_seq s) (transactions_seq s) (chatMessages_seq s) (journal s) (engine s)
  | WInsertTransaction id row =>
      mkDb (users s) (investmentPlans s) (investments s)
        (<[id := row]> (transactions s)) (chatMessages s)
        (investments_seq s) (id + 1) (chatMessages_seq s) (journal s) (engine s)
  | WTransactionStatus id st now =>
      mkDb (users s) (investmentPlans s) (investments s)
        (alter (set_status st now) id (transactions s)) (chatMessages s)
        (investments_seq s) (transactions_seq s) (chatMessages_seq s) (journal s) (engine s)
  | WInsertInvestment id row =>
      mkDb (users s) (investmentPlans s) (<[id := row]> (investments s))
        (transactions s) (chatMessages s)
        (id + 1) (transactions_seq s) (chatMessages_seq s) (journal s) (engine s)
  | WInsertChatMessage id row =>
      mkDb (users s) (investmentPlans s) (investments s)
        (transactions s) (<[id := row]> (chatMessages s))
        (investments_seq s) (transactions_seq s) (id + 1) (journal s) (engine s)
  end.

Definition record_write (w : Write) (s : Db) : Db :=
  mkDb (users s) (investmentPlans s) (investments s) (transactions s) (chatMessages s)
    (investments_seq s) (transactions_seq s) (chatMessages_seq s) (journal s ++ [w])
    (engine s).

(** The statement [w] was issued by [updateUserBalance]. *)
Definition record_engine (w : Write) (s : Db) : Db :=
  mkDb (users s) (investmentPlans s) (investments s) (transactions s) (chatMessages s)
    (investments_seq s) (transactions_seq s) (chatMessages_seq s) (journal s)
    (engine s ++ [w]).

(** The serials of the three tables that receive rows. *)
Inductive Serial := TransactionsSeq | InvestmentsSeq | ChatMessagesSeq.

(** A serial gives each value once: an INSERT that the database refuses
    while it runs has used up the value it drew. *)
Definition skip_serial (q : Serial) (s : Db) : Db :=
  match q with
  | TransactionsSeq =>
      mkDb (users s) (investmentPlans s) (investments s) (transactions s) (chatMessages s)
        (investments_seq s) (transactions_seq s + 1) (chatMessages_seq s) (journal s)
        (engine s)
  | InvestmentsSeq =>
      mkDb (users s) (investmentPlans s) (investments s) (transactions s) (chatMessages s)
        (investments_seq s + 1) (transactions_seq s) (chatMessages_seq s) (journal s)
        (engine s)
  | ChatMessagesSeq =>
      mkDb (users s) (investmentPlans s) (investments s) (transactions s) (chatMessages s)
        (investments_seq s) (transactions_seq s) (chatMessages_seq s + 1) (journal s)
        (engine s)
  end.

(** The tables after the statements [ws], issued in order. *)
Definition replay (ws : list Write) (s : Db) : Db :=
  foldl (fun acc w => record_write w (apply_write w acc)) s ws.

(** ** Exceptions and the request monad *)

Inductive Exn :=
| UserNotFound (id : Z)     (* Error(`User with id ${id} not found`) *)
| InsufficientBalance       (* Error("Insufficient balance") *)
| MissingFields             (* Error("... requires ...") *)
| SchemaRejected            (* thrown by the insert schema's parse *)
| ConstraintViolation       (* raised by the database: key, reference, not-null *)
| NumericRefused.           (* raised by the database: overflow or bad numeral *)

Definition M (A : Type) : Type := Db -> Db * (Exn + A).

Definition ret {A} (a : A) : M A := fun s => (s, inr a).
Definition throw {A} (e : Exn) : M A := fun s => (s, inl e).
Definition bind {A B} (c : M A) (k : A -> M B) : M B :=
  fun s => match c s with
           | (s', inr a) => k a s'
           | (s', inl e) => (s', inl e)
           end.
Definition get : M Db := fun s => (s, inr s).
Definition exec (w : Write) : M unit :=
  fun s => (record_write w (apply_write w s), inr tt).

(** [exec] called from inside [updateUserBalance]. *)
Definition exec_in_engine (w : Write) : M unit :=
  fun s => (record_engine w (record_write w (apply_write w s)), inr tt).

(** The database refuses, with the error [e], an INSERT that drew a value
    of the serial [q]. *)
Definition refuse {A} (q : Serial) (e : Exn) : M A :=
  fun s => (skip_serial q s, inl e).

Notation "'let*' x ':=' c 'in' k" := (bind c (fun x => k))
  (at level 10, x name, c at level 100, k at level 200, only parsing).

(** ** [server/storage.ts]: class [DatabaseStorage] *)

(** Arguments of [createTransaction] and [createInvestment]
    ([Partial<InsertTransaction>], [Partial<InsertInvestment>]). *)
Record TransactionData := mkTransactionData {
  td_userId : Z;
  td_type : TransactionType;
  td_amount : Amount;
  td_currency : option string;
  td_walletAddress : option string;
  td_reason : option string;
  td_status : option TransactionStatus }.

Record InvestmentData := mkInvestmentData {
  id_userId : Z;
  id_planId : Z;
  id_amount : Amount;
  id_startDate : option Z;
  id_isActive : option bool }.

(** [x || d] on an optional string: the empty string is falsy. *)
Definition or_else (x : option string) (d : option string) : option string :=
  match x with
  | Some EmptyString => d
  | Some v => Some v
  | None => d
  end.

Definition getUser (id : Z) : M User :=
  let* s := get in
  match users s !! id with
  | Some user => ret user
  | None => throw (UserNotFound id)
  end.

(** The UPDATE writes the balance the column stores for
    [newBalance.toString()], or fails; the result is the first row it
    returns. *)
Definition updateUserBalance (now id : Z) (amount : Amount) : M (option User) :=
  let* user := getUser id in
  let newBalance := plus (balance user) amount in
  if lt_zero newBalance then throw InsufficientBalance
  else
    match stored newBalance with
    | None => throw NumericRefused
    | Some cents =>
        let* _ := exec_in_engine (WUserBalance id cents now) in
        let* s := get in
        ret (users s !! id)
    end.

(** [db.insert(schema.transactions).values(row).returning()]: the row gets
    the next value of the serial.  An amount beyond the column is refused
    when the statement is prepared, before a serial value is drawn; the
    primary key and the reference to [users.id] are checked when it
    runs. *)
Definition insert_transaction (row : Transaction) : M (Z * Transaction) :=
  let* s := get in
  let id := transactions_seq s in
  match numeric_10_2 (tx_amount row) with
  | None => throw NumericRefused
  | Some _ =>
      match transactions s !! id, users s !! tx_userId row with
      | None, Some _ => let* _ := exec (WInsertTransaction id row) in ret (id, row)
      | _, _ => refuse TransactionsSeq ConstraintViolation
      end
  end.

Definition insert_investment (row : Investment) : M (Z * Investment) :=
  let* s := get in
  let id := investments_seq s in
  match numeric_10_2 (inv_amount row) with
  | None => throw NumericRefused
  | Some _ =>
      match investments s !! id, users s !! inv_userId row,
            investmentPlans s !! inv_planId row with
      | None, Some _, Some _ => let* _ := exec (WInsertInvestment id row) in ret (id, row)
      | _, _, _ => refuse InvestmentsSeq ConstraintViolation
      end
  end.

(** The status argument is one of the values of [transactionStatusEnum],
    as at both call sites, so the [includes] test passes; the result is
    the first returned row, [None] when no row has this [id]. *)
Definition updateTransactionStatus (now id : Z) (st : TransactionStatus)
  : M (option Transaction) :=
  let* _ := exec (WTransactionStatus id st now) in
  let* s := get in
  ret (transactions s !! id).

Section InsertSchemas.

(** [insertTransactionSchema] and [insertInvestmentSchema] are generated by
    [createInsertSchema] from the column types, with the refinement
    [amount: schema.min(1, "Amount must be greater than 0")].  What [parse]
    accepts for the [amount] field is a parameter of the storage methods
    and of the routes; the schema the generator gives for these columns
    is [decimal_column_min1] below.  The other fields are typed here and
    always pass. *)
Variable insertTransactionSchema_amount : Amount -> bool.
Variable insertInvestmentSchema_amount : Amount -> bool.

Definition createTransaction (now : Z) (d : TransactionData) : M (Z * Transaction) :=
  if falsy (td_amount d) || (td_userId d =? 0) then throw MissingFields
  else if negb (insertTransactionSchema_amount (td_amount d)) then throw SchemaRejected
  else
    insert_transaction
      (mkTransaction (td_userId d) (td_type d) (to_number (td_amount d))
         (or_else (td_currency d) (Some "USD"%string))
         (or_else (td_walletAddress d) None)
         (or_else (td_reason d) None)
         (default Pending (td_status d))
         now).

Definition createInvestment (now : Z) (d : InvestmentData) : M (Z * Investment) :=
  if (id_userId d =? 0) || (id_planId d =? 0) || falsy (id_amount d) then throw MissingFields
  else if negb (insertInvestmentSchema_amount (id_amount d)) then throw SchemaRejected
  else
    insert_investment
      (mkInvestment (id_userId d) (id_planId d) (to_number (id_amount d))
         (default now (id_startDate d))
         (default true (id_isActive d))).

(** ** Route handlers ([registerRoutes]) *)

Inductive Body :=
| JMessage (message : string)
| JAmountBetween (lo hi : Z)
| JInvestment (id : Z) (row : Investment)
| JTransaction (id : Z) (row : option Transaction).

Definition Response : Type := Z * Body.

(** [try { ... } catch (error) { res.status(500).json({ message }) }] *)
Definition try_catch (c : M Response) (message : string) (s : Db) : Db * Response :=
  match c s with
  | (s', inr r) => (s', r)
  | (s', inl _) => (s', (500, JMessage message))
  end.

Definition findFirst_user (id : Z) : M (option User) :=
  let* s := get in ret (users s !! id).

Definition findFirst_plan (id : Z) : M (option InvestmentPlan) :=
  let* s := get in ret (investmentPlans s !! id).

(** [findFirst] on [transactions] with [id], [type = "withdrawal"] and
    [status = "pending"]. *)
Definition findFirst_pending_withdrawal (id : Z) : M (option Transaction) :=
  let* s := get in
  ret (match transactions s !! id with
       | Some t =>
           if decide (tx_type t = Withdrawal /\ tx_status t = Pending) then Some t else None
       | None => None
       end).

(** POST /api/investments *)
Definition post_investments (now userId planId : Z) (amount : Amount)
  : Db -> Db * Response :=
  try_catch
    (let* plan := findFirst_plan planId in
     match plan with
     | None => ret (404, JMessage "Investment plan not found")
     | Some plan =>
         if (to_number amount <? minAmount plan) || (to_number amount >? maxAmount plan)
         then ret (400, JAmountBetween (minAmount plan) (maxAmount plan))
         else
           let* user := findFirst_user userId in
           match user with
           | None => ret (400, JMessage "Insufficient balance")
           | Some user =>
               if balance user <? to_number amount
               then ret (400, JMessage "Insufficient balance")
               else
                 let* investment :=
                   createInvestment now (mkInvestmentData userId planId amount None None) in
                 let* _ := updateUserBalance now userId (negate amount) in
                 ret (201, JInvestment (fst investment) (snd investment))
           end
     end)
    "Error creating investment".

(** POST /api/transactions/deposit *)
Definition post_deposit (now userId : Z) (amount : Amount) (currency : option string)
  : Db -> Db * Response :=
  try_catch
    (if to_number amount <? 5000 then ret (400, JMessage "Minimum deposit amount is $50")
     else
       let* transaction :=
         createTransaction now
           (mkTransactionData userId Deposit amount currency None None (Some Completed)) in
       let* _ := updateUserBalance now userId amount in
       ret (201, JTransaction (fst transaction) (Some (snd transaction))))
    "Error processing deposit".

(** POST /api/transactions/withdraw *)
Definition post_withdraw (now userId : Z) (amount : Amount)
    (currency walletAddress reason : option string) : Db -> Db * Response :=
  try_catch
    (if to_number amount <? 5000 then ret (400, JMessage "Minimum withdrawal amount is $50")
     else
       let* user := findFirst_user userId in
       match user with
       | None => ret (400, JMessage "Insufficient balance")
       | Some user =>
           if balance user <? to_number amount
           then ret (400, JMessage "Insufficient balance")
           else
             let* transaction :=
               createTransaction now
                 (mkTransactionData userId Withdrawal amount currency walletAddress reason
                    (Some Pending)) in
             let* _ := updateUserBalance now userId (negate amount) in
             ret (201, JTransaction (fst transaction) (Some (snd transaction)))
       end)
    "Error processing withdrawal".

(** PATCH /api/admin/withdrawals/:id/approve, with [withdrawalId] the
    number read from the path. *)
Definition patch_approve (now withdrawalId : Z) : Db -> Db * Response :=
  try_catch
    (let* withdrawal := findFirst_pending_withdrawal withdrawalId in
     match withdrawal with
     | None => ret (404, JMessage "Pending withdrawal request not found")
     | Some _ =>
         let* updatedWithdrawal := updateTransactionStatus now withdrawalId Completed in
         ret (200, JTransaction withdrawalId updatedWithdrawal)
     end)
    "Error approving withdrawal request".

(** PATCH /api/admin/withdrawals/:id/reject *)
Definition patch_reject (now withdrawalId : Z) : Db -> Db * Response :=
  try_catch
    (let* withdrawal := findFirst_pending_withdrawal withdrawalId in
     match withdrawal with
     | None => ret (404, JMessage "Pending withdrawal request not found")
     | Some withdrawal =>
         let* _ :=
           updateUserBalance now (tx_userId withdrawal) (Num (tx_amount withdrawal)) in
         let* updatedWithdrawal := updateTransactionStatus now withdrawalId Rejected in
         ret (200, JTransaction withdrawalId updatedWithdrawal)
     end)
    "Error rejecting withdrawal request".

(** ** Sequences of requests *)

Inductive Request :=
| Invest (now userId planId : Z) (amount : Amount)
| MakeDeposit (now userId : Z) (amount : Amount) (currency : option string)
| RequestWithdrawal (now userId : Z) (amount : Amount)
    (currency walletAddress reason : option string)
| ApproveWithdrawal (now withdrawalId : Z)
| RejectWithdrawal (now withdrawalId : Z).

Definition handle (r : Request) : Db -> Db * Response :=
  match r with
  | Invest now userId planId amount => post_investments now userId planId amount
  | MakeDeposit now userId amount currency => post_deposit now userId amount currency
  | RequestWithdrawal now userId amount currency walletAddress reason =>
      post_withdraw now userId amount currency walletAddress reason
  | ApproveWithdrawal now withdrawalId => patch_approve now withdrawalId
  | RejectWithdrawal now withdrawalId => patch_reject now withdrawalId
  end.

(** The requests are served one after the other. *)
Definition serve (rs : list Request) (s : Db) : Db :=
  foldl (fun acc r => fst (handle r acc)) s rs.

Definition is_invest (r : Request) : bool :=
  match r with
  | Invest _ _ _ _ => true
  | _ => false
  end.


End InsertSchemas.

(** The schema [createInsertSchema] gives for a [decimal] column is a
    string schema, and [min(1)] on it asks for one character or more: a
    JSON number is refused, a decimal text is accepted. *)
Definition decimal_column_min1 (amount : Amount) : bool :=
  match amount with
  | Num _ => false
  | Str _ => true
  end.

(** ** Ledger quantities *)

Definition balanceOf (s : Db) (id : Z) : Z :=
  default 0 (balance <$> users s !! id).








(** ** Statements issued by a request *)

(** The statements appended to the journal between [s] and [s']. *)
Definition issued (s s' : Db) : list Write :=
  drop (length (journal s)) (journal s').

Definition is_debit (w : Write) : bool :=
  match w with
  | WUserBalance _ _ _ => true
  | _ => false
  end.

Definition is_investment_insert (w : Write) : bool :=
  match w with
  | WInsertInvestment _ _ => true
  | _ => false
  end.

(** The balance is written before the investment row is inserted. *)
Definition debit_precedes_insert (ws : list Write) : Prop :=
  exists (i j : nat) (w1 w2 : Write),
    ws !! i = Some w1 /\ ws !! j = Some w2 /\
    is_debit w1 = true /\ is_investment_insert w2 = true /\ (i < j)%nat.

(** All or nothing: whatever number [k] of the statements [ws] has been
    executed, the [users] and [investments] tables are those before the
    request or those after it. *)
Definition atomic_unit (s : Db) (ws : list Write) : Prop :=
  forall k : nat,
    let mid := replay (take k ws) s in
    (users mid = users s /\ investments mid = investments s) \/
    (users mid = users (replay ws s) /\ investments mid = investments (replay ws s)).





(** ** WebSocket server: the [clients] map and the chat branch *)

Module Chat.

Inductive ReadyState := CONNECTING | OPEN | CLOSING | CLOSED.

Global Instance ReadyState_eq_dec : EqDecision ReadyState.
Proof. solve_decision. Defined.

(** Frames the server sends. *)
Inductive Frame :=
| new_message (id : Z) (message : ChatMessage)
| admin_reply (id : Z) (message : ChatMessage).

(** A socket object: its [readyState] and what [send] has been given. *)
Record Socket := mkSocket {
  readyState : ReadyState;
  sent : list Frame }.

(** The server: the database, the [clients] map from the [userId] of the
    URL to the socket object (sockets are named by numbers), the socket
    objects, the [userId] captured by the listeners registered on a
    socket, and the number of [console.error] calls. *)
Record Server := mkServer {
  db : Db;
  clients : gmap string nat;
  sockets : gmap nat Socket;
  listeners : gmap nat string;
  console_errors : nat }.

(** [parseInt(s)]: leading white space, a sign, a [0x] prefix, then the
    longest prefix of digits; [None] is [NaN].  A character is a code
    unit below 256, so the white space is TAB, LF, VT, FF, CR, SP and
    NBSP.  The result is the integer the digits write, which is
    JavaScript's result for magnitudes up to 2^53, the range of the
    identifiers. *)
Definition is_space (a : ascii) : bool :=
  let n := nat_of_ascii a in
  ((9 <=? n) && (n <=? 13))%nat || (n =? 32)%nat || (n =? 160)%nat.

Fixpoint skip_space (s : string) : string :=
  match s with
  | String a rest => if is_space a then skip_space rest else s
  | EmptyString => s
  end.

Definition digit_of (radix : Z) (a : ascii) : option Z :=
  let n := Z.of_nat (nat_of_ascii a) in
  let d := if (48 <=? n) && (n <=? 57) then Some (n - 48)
           else if (97 <=? n) && (n <=? 122) then Some (n - 87)
           else if (65 <=? n) && (n <=? 90) then Some (n - 55)
           else None in
  match d with
  | Some v => if v <? radix then Some v else None
  | None => None
  end.

Fixpoint digits (radix : Z) (s : string) (acc : option Z) : option Z :=
  match s with
  | String a rest =>
      match digit_of radix a with
      | Some d => digits radix rest (Some (default 0 acc * radix + d))
      | None => acc
      end
  | EmptyString => acc
  end.

Definition parseInt (s : string) : option Z :=
  let s1 := skip_space s in
  let '(negative, s2) :=
    match s1 with
    | String "-"%char rest => (true, rest)
    | String "+"%char rest => (false, rest)
    | _ => (false, s1)
    end in
  let '(radix, s3) :=
    match s2 with
    | String "0"%char (String "x"%char rest) => (16, rest)
    | String "0"%char (String "X"%char rest) => (16, rest)
    | _ => (10, s2)
    end in
  match digits radix s3 None with
  | Some v => Some (if negative : bool then - v else v)
  | None => None
  end.

(** [url.split('?userId=')[1]]; [None] is [undefined]. *)
Definition split_userId (url : string) : option string :=
  let sep := "?userId="%string in
  match String.index 0 sep url with
  | None => None
  | Some n =>
      let start := (n + String.length sep)%nat in
      let rest := String.substring start (String.length url - start) url in
      match String.index 0 sep rest with
      | None => Some rest
      | Some m => Some (String.substring 0 m rest)
      end
  end.

(** [db.insert(schema.chatMessages).values({ userId, content, status:
    "unread" }).returning()], with [userId] a number or [NaN] and
    [content] possibly [undefined].  A [NaN] is not an integer: the
    statement is refused before it runs.  A missing content, an unknown
    user or a key in use make the statement fail after it drew its
    serial value. *)
Definition insert_chatMessage (userId : option Z) (content : option string)
  : M (Z * ChatMessage) :=
  let* s := get in
  let id := chatMessages_seq s in
  match userId with
  | None => throw ConstraintViolation
  | Some uid =>
      match content, chatMessages s !! id, users s !! uid with
      | Some text, None, Some _ =>
          let row := mkChatMessage uid text Unread None None in
          let* _ := exec (WInsertChatMessage id row) in ret (id, row)
      | _, _, _ => refuse ChatMessagesSeq ConstraintViolation
      end
  end.

(** [db.query.users.findFirst({ where: eq(schema.users.id, id) })] that is
    not awaited: the value is the query object.  It is an object, hence
    truthy, and it has no member [role]. *)
Inductive UsersQuery := findFirst_users (id : option Z).

Definition query_truthy (q : UsersQuery) : bool := true.

(** [user.role] on the query object: [undefined]. *)
Definition query_role (q : UsersQuery) : option Role := None.

Definition send (client : nat) (f : Frame) (srv : Server) : Server :=
  mkServer (db srv) (clients srv)
    (alter (fun sk => mkSocket (readyState sk) (sent sk ++ [f])) client (sockets srv))
    (listeners srv) (console_errors srv).

Definition is_open (client : nat) (srv : Server) : bool :=
  match sockets srv !! client with
  | Some sk => bool_decide (readyState sk = OPEN)
  | None => false
  end.

(** The body of [clients.forEach((client, clientId) => ...)] in the chat
    branch. *)
Definition notify_admin (chatMessage : Z * ChatMessage) (clientId : string) (client : nat)
    (srv : Server) : Server :=
  let user := findFirst_users (parseInt clientId) in
  if query_truthy user && bool_decide (query_role user = Some RoleAdmin) && is_open client srv
  then send client (new_message (fst chatMessage) (snd chatMessage)) srv
  else srv.

(** The branch [parsedMessage.type === 'chat'] of the ['message'] listener
    of the socket registered under [userId], inside its [try]/[catch]. *)
Definition chat_branch (userId : string) (content : option string) (srv : Server) : Server :=
  match insert_chatMessage (parseInt userId) content (db srv) with
  | (db', inr chatMessage) =>
      map_fold (notify_admin chatMessage)
        (mkServer db' (clients srv) (sockets srv) (listeners srv) (console_errors srv))
        (clients srv)
  | (db', inl _) =>
      mkServer db' (clients srv) (sockets srv) (listeners srv) (S (console_errors srv))
  end.

(** [wss.on('connection', (ws, req) => ...)]: the socket is open; when the
    URL carries a non-empty [userId], it is stored in [clients] and the
    listeners are registered. *)
Definition on_connection (ws : nat) (url : string) (srv : Server) : Server :=
  let opened := <[ws := mkSocket OPEN []]> (sockets srv) in
  match split_userId url with
  | Some (String a rest) =>
      let userId := String a rest in
      mkServer (db srv) (<[userId := ws]> (clients srv)) opened
        (<[ws := userId]> (listeners srv)) (console_errors srv)
  | _ => mkServer (db srv) (clients srv) opened (listeners srv) (console_errors srv)
  end.

(** The socket [ws] closes: its state becomes [CLOSED] and its ['close']
    listener, if one was registered, runs [clients.delete(userId)]. *)
Definition on_close (ws : nat) (srv : Server) : Server :=
  let closed := alter (fun sk => mkSocket CLOSED (sent sk)) ws (sockets srv) in
  match listeners srv !! ws with
  | Some userId =>
      mkServer (db srv) (delete userId (clients srv)) closed (listeners srv)
        (console_errors srv)
  | None => mkServer (db srv) (clients srv) closed (listeners srv) (console_errors srv)
  end.

(** [clients.get(userId)] *)
Definition lookup_client (userId : string) (srv : Server) : option nat :=
  clients srv !! userId.

End Chat.

(** ** A small database and some requests *)

(** The text of a whole number of dollars, and the amount sent as that
    string: [dollars 50] is ["50"]. *)
Definition dollars (n : N) : Amount :=
  let whole := uint_digits (N.to_uint n) in
  Str (mkDecimalText false (hd Zero whole) (tl whole) NoPoint).

(** User 1 holds $100.00, user 2 is an administrator, user 3 holds $10.00;
    plan 1 takes $100.00 to $200.00; transaction 1 is a pending withdrawal
    of $60.00 by user 1. *)
Definition sample_db : Db :=
  mkDb
    (<[1 := mkUser 10000 RoleUser 0]>
       (<[2 := mkUser 0 RoleAdmin 0]> (<[3 := mkUser 1000 RoleUser 0]> ∅)))
    (<[1 := mkPlan 10000 20000 Active]> ∅)
    ∅
    (<[1 := mkTransaction 1 Withdrawal 6000 (Some "USD"%string) None None Pending 0]> ∅)
    ∅
    1 2 1 [] [].

(** A database at the limit of the balance column: user 1 holds
    $99,999,990.00 and has a pending withdrawal of $60.00, transaction
    1. *)
Definition full_db : Db :=
  mkDb
    (<[1 := mkUser 9999999000 RoleUser 0]> (<[2 := mkUser 0 RoleAdmin 0]> ∅))
    (<[1 := mkPlan 10000 20000 Active]> ∅)
    ∅
    (<[1 := mkTransaction 1 Withdrawal 6000 (Some "USD"%string) None None Pending 0]> ∅)
    ∅
    1 2 1 [] [].

(** A deposit of "50", a withdrawal request of "70", its rejection, and
    the approval of the withdrawal [sample_db] starts with; the amounts
    are sent as strings. *)
Definition sample_requests : list Request :=
  [MakeDeposit 1 1 (dollars 50) None;
   RequestWithdrawal 2 1 (dollars 70) None (Some "bc1qexample"%string) None;
   RejectWithdrawal 3 3;
   ApproveWithdrawal 4 1].

(** The administrator (user 2) is connected on socket 7 and user 1 on
    socket 8, over [sample_db]. *)
Definition sample_server : Chat.Server :=
  Chat.on_connection 8 "/ws?userId=1"
    (Chat.on_connection 7 "/ws?userId=2" (Chat.mkServer sample_db ∅ ∅ ∅ 0)).

(** ** Invariants of the ledger *)


(** The columns of a transaction that no request rewrites. *)
Definition same_order (t t' : Transaction) : Prop :=
  tx_userId t' = tx_userId t /\ tx_type t' = tx_type t /\ tx_amount t' = tx_amount t /\
  tx_currency t' = tx_currency t /\ tx_walletAddress t' = tx_walletAddress t /\
  tx_reason t' = tx_reason t.

(** Every key in use is below the next value of its serial. *)
Definition serials_ahead (s : Db) : Prop :=
  map_Forall (fun k _ => k < transactions_seq s) (transactions s) /\
  map_Forall (fun k _ => k < investments_seq s) (investments s).

(** Every reference to [users.id] and [investment_plans.id] made by a
    transaction or an investment has its row. *)
Definition references_hold (s : Db) : Prop :=
  map_Forall (fun _ t => is_Some (users s !! tx_userId t)) (transactions s) /\
  map_Forall (fun _ i => is_Some (users s !! inv_userId i) /\
                         is_Some (investmentPlans s !! inv_planId i)) (investments s).



(** ** Support chat: the ['message'] listener, the reply branch and the
       HTTP routes on [chat_messages] *)

Module Support.

Import Chat.

(** [n.toString()] on an integer of magnitude below 10^21, where
    JavaScript writes every digit. *)
Definition toString (n : Z) : string := pretty n.

(** The row after [set({ adminResponse, adminId, status })]: a field given
    as [undefined] is left as it is. *)
Definition set_reply (adminResponse : option string) (adminId : Z) (st : MessageStatus)
    (m : ChatMessage) : ChatMessage :=
  mkChatMessage (msg_userId m) (msg_content m) st
    (match adminResponse with
     | Some text => Some text
     | None => msg_adminResponse m
     end)
    (Some adminId).

Definition with_chatMessages (cm : gmap Z ChatMessage) (s : Db) : Db :=
  mkDb (users s) (investmentPlans s) (investments s) (transactions s) cm
    (investments_seq s) (transactions_seq s) (chatMessages_seq s) (journal s) (engine s).

(** [db.update(schema.chatMessages).set({...}).where(eq(id)).returning()],
    first returned row.  [adminId] is a number or [NaN]; a [NaN] is
    refused by the database, and so is an [adminId] without a [users] row
    when a message row is updated.  The journal has no entry for this
    statement; it is applied to the table. *)
Definition update_chatMessage (messageId : Z) (adminResponse : option string)
    (adminId : option Z) (st : MessageStatus) : M (option (Z * ChatMessage)) :=
  let* s := get in
  match adminId with
  | None => throw ConstraintViolation
  | Some aid =>
      match chatMessages s !! messageId with
      | None => ret None
      | Some m =>
          match users s !! aid with
          | None => throw ConstraintViolation
          | Some _ =>
              let row := set_reply adminResponse aid st m in
              fun _ => (with_chatMessages (<[messageId := row]> (chatMessages s)) s,
                        inr (Some (messageId, row)))
          end
      end
  end.

Definition with_db (d : Db) (srv : Server) : Server :=
  mkServer d (clients srv) (sockets srv) (listeners srv) (console_errors srv).

Definition console_error (srv : Server) : Server :=
  mkServer (db srv) (clients srv) (sockets srv) (listeners srv) (S (console_errors srv)).

(** The branch [parsedMessage.type === 'admin_reply' &&
    parsedMessage.messageId] of the ['message'] listener of the socket
    registered under [userId], with [messageId] truthy, inside its
    [try]/[catch]; reading [userId] of a missing row throws. *)
Definition admin_reply_branch (userId : string) (messageId : Z) (content : option string)
    (srv : Server) : Server :=
  match update_chatMessage messageId content (parseInt userId) Replied (db srv) with
  | (db', inr (Some updatedMessage)) =>
      let srv' := with_db db' srv in
      let targetUserId := toString (msg_userId (snd updatedMessage)) in
      match clients srv' !! targetUserId with
      | Some targetWs =>
          if is_open targetWs srv'
          then send targetWs (admin_reply (fst updatedMessage) (snd updatedMessage)) srv'
          else srv'
      | None => srv'
      end
  | (db', inr None) => console_error (with_db db' srv)
  | (db', inl _) => console_error (with_db db' srv)
  end.

(** A frame received from a client after [JSON.parse]. *)
Record ParsedMessage := mkParsedMessage {
  pm_type : option string;
  pm_content : option string;
  pm_messageId : option Z }.

(** The ['message'] listener of socket [ws]; [None] is a frame on which
    [JSON.parse] throws or yields [null]. *)
Definition on_message (ws : nat) (frame : option ParsedMessage) (srv : Server) : Server :=
  match listeners srv !! ws with
  | None => srv
  | Some userId =>
      match frame with
      | None => console_error srv
      | Some parsedMessage =>
          if bool_decide (pm_type parsedMessage = Some "chat"%string)
          then chat_branch userId (pm_content parsedMessage) srv
          else
            match pm_messageId parsedMessage with
            | Some messageId =>
                if bool_decide (pm_type parsedMessage = Some "admin_reply"%string)
                   && negb (messageId =? 0)
                then admin_reply_branch userId messageId (pm_content parsedMessage) srv
                else srv
            | None => srv
            end
      end
  end.

(** Answers of the chat routes. *)
Inductive ChatBody :=
| CMessage (message : string)
| CChatMessage (row : option (Z * ChatMessage)).

(** POST /api/chat/messages.  [userId] is [req.user.id]; it is [None],
    [undefined], when the token has no member [id], as the tokens
    [generateToken] signs, whose member is [userId]: the row then has no
    [user_id] and the database refuses it. *)
Definition post_chat_message (userId : option Z) (content : option string) (s : Db)
  : Db * (Z * ChatBody) :=
  let insert :=
    match userId with
    | Some uid => insert_chatMessage (Some uid) content
    | None => refuse ChatMessagesSeq ConstraintViolation
    end in
  match insert s with
  | (s', inr message) => (s', (201, CChatMessage (Some message)))
  | (s', inl _) => (s', (500, CMessage "Error sending message"))
  end.

(** The row after [set({ adminResponse, adminId: undefined, status })]:
    the column [admin_id] is not written. *)
Definition set_answer (adminResponse : option string) (st : MessageStatus)
    (m : ChatMessage) : ChatMessage :=
  mkChatMessage (msg_userId m) (msg_content m) st
    (match adminResponse with
     | Some text => Some text
     | None => msg_adminResponse m
     end)
    (msg_adminId m).

(** The values of [messageStatusEnum]. *)
Definition messageStatus_of (st : string) : option MessageStatus :=
  if bool_decide (st = "unread"%string) then Some Unread
  else if bool_decide (st = "read"%string) then Some Read
  else if bool_decide (st = "replied"%string) then Some Replied
  else None.

(** PATCH /api/admin/chat/messages/:id, with [adminId] the [req.user.id]
    of the token, [None] when the token has no member [id];
    [status || "replied"], and a status outside the enum is refused by
    the database. *)
Definition patch_chat_message (adminId : option Z) (messageId : Z)
    (adminResponse status : option string) (s : Db) : Db * (Z * ChatBody) :=
  match chatMessages s !! messageId with
  | None => (s, (404, CMessage "Message not found"))
  | Some m =>
      match messageStatus_of (default "replied"%string (or_else status None)) with
      | None => (s, (500, CMessage "Error updating message"))
      | Some st =>
          match adminId with
          | Some aid =>
              match update_chatMessage messageId adminResponse (Some aid) st s with
              | (s', inr updatedMessage) => (s', (200, CChatMessage updatedMessage))
              | (s', inl _) => (s', (500, CMessage "Error updating message"))
              end
          | None =>
              let row := set_answer adminResponse st m in
              (with_chatMessages (<[messageId := row]> (chatMessages s)) s,
               (200, CChatMessage (Some (messageId, row))))
          end
      end
  end.

(** GET /api/admin/chat/messages/unread: the rows in status unread. *)
Definition unread_messages (s : Db) : gmap Z ChatMessage :=
  filter (fun kv => msg_status (snd kv) = Unread) (chatMessages s).

(** GET /api/chat/messages: the rows of one user. *)
Definition messages_of (userId : Z) (s : Db) : gmap Z ChatMessage :=
  filter (fun kv => msg_userId (snd kv) = userId) (chatMessages s).

End Support.

(** ** Administration: deleting users and plans, and the [isAdmin] guard *)

Module Admin.

Definition with_users (us : gmap Z User) (s : Db) : Db :=
  mkDb us (investmentPlans s) (investments s) (transactions s) (chatMessages s)
    (investments_seq s) (transactions_seq s) (chatMessages_seq s) (journal s) (engine s).

Definition with_investmentPlans (ps : gmap Z InvestmentPlan) (s : Db) : Db :=
  mkDb (users s) ps (investments s) (transactions s) (chatMessages s)
    (investments_seq s) (transactions_seq s) (chatMessages_seq s) (journal s) (engine s).

(** A row of [transactions], [investments] or [chat_messages] refers to
    the user [id] ([references(() => users.id)]). *)
Definition user_is_referenced (id : Z) (s : Db) : Prop :=
  map_Exists (fun _ t => tx_userId t = id) (transactions s) \/
  map_Exists (fun _ i => inv_userId i = id) (investments s) \/
  map_Exists (fun _ m => msg_userId m = id \/ msg_adminId m = Some id) (chatMessages s).

Definition plan_is_referenced (id : Z) (s : Db) : Prop :=
  map_Exists (fun _ i => inv_planId i = id) (investments s).

(** [db.delete(schema.users).where(eq(schema.users.id, id))]: the database
    refuses the statement while the user is referred to. *)
Definition deleteUser (id : Z) : M unit :=
  let* s := get in
  if decide (user_is_referenced id s) then throw ConstraintViolation
  else fun _ => (with_users (delete id (users s)) s, inr tt).

Definition deleteInvestmentPlan (id : Z) : M unit :=
  let* s := get in
  if decide (plan_is_referenced id s) then throw ConstraintViolation
  else fun _ => (with_investmentPlans (delete id (investmentPlans s)) s, inr tt).

(** [parseInt(req.params.id)] given to a query: [NaN] is refused by the
    database. *)
Definition param_id (param : string) : M Z :=
  match Chat.parseInt param with
  | Some id => ret id
  | None => throw ConstraintViolation
  end.

(** DELETE /api/admin/users/:id.  [getUser] throws when the row is
    missing, so the test [if (!user)] that follows it never holds. *)
Definition delete_user (param : string) : Db -> Db * Response :=
  try_catch
    (let* userId := param_id param in
     let* user := getUser userId in
     let* _ := deleteUser userId in
     ret (200, JMessage "User deleted successfully"))
    "Error deleting user".

(** DELETE /api/plans/:id *)
Definition delete_plan (param : string) : Db -> Db * Response :=
  try_catch
    (let* planId := param_id param in
     let* plan := findFirst_plan planId in
     match plan with
     | None => ret (404, JMessage "Investment plan not found")
     | Some _ =>
         let* _ := deleteInvestmentPlan planId in
         ret (200, JMessage "Investment plan deleted successfully")
     end)
    "Error deleting investment plan".

(** [s.split(sep)[1]]; [None] is [undefined]. *)
Definition split_second (sep s : string) : option string :=
  match String.index 0 sep s with
  | None => None
  | Some n =>
      let start := (n + String.length sep)%nat in
      let rest := String.substring start (String.length s - start) s in
      match String.index 0 sep rest with
      | None => Some rest
      | Some m => Some (String.substring 0 m rest)
      end
  end.

(** The decoded token ([JwtPayload]). *)
Record JwtPayload := mkJwtPayload {
  jwt_userId : Z;
  jwt_role : string }.

(** What [isAdmin] reads of the request. *)
Record Credentials := mkCredentials {
  authorization : option string;
  cookie_token : option string }.

Definition truthy (x : option string) : bool :=
  match x with
  | Some (String _ _) => true
  | _ => false
  end.

Section Jwt.

(** [jwt.verify(token, JWT_SECRET)]; [None] when it throws. *)
Variable verify : string -> option JwtPayload.

Definition token_of (c : Credentials) : option string :=
  if truthy (authorization c)
  then split_second " " (default ""%string (authorization c))
  else cookie_token c.

(** [isAdmin]: the answer it sends, or the payload it puts in [req.user]
    before calling [next()]. *)
Definition isAdmin (c : Credentials) : Response + JwtPayload :=
  if negb (truthy (authorization c)) && negb (truthy (cookie_token c))
  then inl (401, JMessage "No token provided")
  else
    match token_of c with
    | None => inl (401, JMessage "Unauthorized")
    | Some token =>
        match verify token with
        | None => inl (401, JMessage "Unauthorized")
        | Some decoded =>
            if decide (jwt_role decoded <> "admin"%string)
            then inl (403, JMessage "Forbidden")
            else inr decoded
        end
    end.

End Jwt.

End Admin.

(** ** Decimal strings *)

Module Decimal.

Import Chat.

(** Every character is one of ["0"] ... ["9"]. *)
Fixpoint all_digits (s : string) : bool :=
  match s with
  | EmptyString => true
  | String a rest => bool_decide (is_Some (digit_of 10 a)) && all_digits rest
  end.

(** The character [c] does not occur. *)
Fixpoint lacks (c : ascii) (s : string) : bool :=
  match s with
  | EmptyString => true
  | String a rest => negb (bool_decide (a = c)) && lacks c rest
  end.

End Decimal.

(** Sample servers: user 1 has asked "hello" over the socket of
    [sample_server]; and the same question stored over HTTP, with nobody
    connected. *)
Definition asked_server : Chat.Server :=
  Chat.chat_branch "1" (Some "hello"%string) sample_server.

Definition offline_server : Chat.Server :=
  Chat.mkServer (fst (Support.post_chat_message (Some 1) (Some "hello"%string) sample_db))
    ∅ ∅ ∅ 0.

(** * Theorems *)

(** ** Stepping through the storage methods *)

Lemma bind_ok {A B} (c : M A) (k : A -> M B) s s' a :
  c s = (s', inr a) -> bind c k s = k a s'.
Proof. intros H. unfold bind. rewrite H. reflexivity. Qed.

Lemma bind_throw {A B} (c : M A) (k : A -> M B) s s' e :
  c s = (s', inl e) -> bind c k s = (s', inl e).
Proof. intros H. unfold bind. rewrite H. reflexivity. Qed.

Lemma issued_one w s : issued s (record_write w (apply_write w s)) = [w].
Proof.
  unfold issued. destruct w; cbn; rewrite drop_app_length; reflexivity.
Qed.

Lemma issued_refl s : issued s s = [].
Proof. unfold issued. apply drop_all. Qed.

(** ** Numbers, texts and the column *)

Lemma numeric_10_2_holds cents :
  -10000000000 < cents < 10000000000 -> numeric_10_2 cents = Some cents.
Proof.
  intros [Hlo Hhi]. unfold numeric_10_2.
  destruct (Z.ltb_spec (-10000000000) cents) as [_|?]; [|lia].
  destruct (Z.ltb_spec cents 10000000000) as [_|?]; [reflexivity|lia].
Qed.

Lemma numeric_10_2_overflow cents :
  10000000000 <= cents -> numeric_10_2 cents = None.
Proof.
  intros Hhi. unfold numeric_10_2.
  destruct (Z.ltb_spec cents 10000000000) as [?|_]; [lia|].
  rewrite andb_false_r. reflexivity.
Qed.





(** ** The balance engine: [updateUserBalance] *)

Lemma updateUserBalance_ok now id delta s u :
  users s !! id = Some u ->
  0 <= balance u + delta < 10000000000 ->
  let w := WUserBalance id (balance u + delta) now in
  updateUserBalance now id (Num delta) s =
    (record_engine w (record_write w (apply_write w s)),
     inr (Some (set_balance (balance u + delta) now u))).
Proof.
  intros Hu Hge. unfold updateUserBalance, getUser, bind, get. rewrite Hu.
  cbn [ret plus lt_zero stored].
  destruct (Z.ltb_spec (balance u + delta) 0) as [Hlt|_]; [lia|].
  rewrite numeric_10_2_holds by lia.
  cbn. rewrite lookup_alter_eq, Hu. reflexivity.
Qed.

Lemma updateUserBalance_insufficient now id delta s u :
  users s !! id = Some u ->
  balance u + delta < 0 ->
  updateUserBalance now id (Num delta) s = (s, inl InsufficientBalance).
Proof.
  intros Hu Hlt. unfold updateUserBalance, getUser, bind, get. rewrite Hu.
  cbn [ret plus lt_zero stored].
  destruct (Z.ltb_spec (balance u + delta) 0) as [_|Hge]; [reflexivity|lia].
Qed.

Lemma updateUserBalance_overflow now id delta s u :
  users s !! id = Some u ->
  10000000000 <= balance u + delta ->
  updateUserBalance now id (Num delta) s = (s, inl NumericRefused).
Proof.
  intros Hu Hhi. unfold updateUserBalance, getUser, bind, get. rewrite Hu.
  cbn [ret plus lt_zero stored].
  destruct (Z.ltb_spec (balance u + delta) 0) as [Hlt|_]; [lia|].
  rewrite numeric_10_2_overflow by lia. reflexivity.
Qed.

Lemma updateUserBalance_missing now id amount s :
  users s !! id = None ->
  updateUserBalance now id amount s = (s, inl (UserNotFound id)).
Proof.
  intros Hu. unfold updateUserBalance, getUser, bind, get. rewrite Hu. reflexivity.
Qed.

Lemma createTransaction_ok schema now d s u :
  falsy (td_amount d) = false -> td_userId d <> 0 ->
  schema (td_amount d) = true ->
  -10000000000 < to_number (td_amount d) < 10000000000 ->
  transactions s !! transactions_seq s = None ->
  users s !! td_userId d = Some u ->
  let row := mkTransaction (td_userId d) (td_type d) (to_number (td_amount d))
               (or_else (td_currency d) (Some "USD"%string))
               (or_else (td_walletAddress d) None) (or_else (td_reason d) None)
               (default Pending (td_status d)) now in
  let w := WInsertTransaction (transactions_seq s) row in
  createTransaction schema now d s =
    (record_write w (apply_write w s), inr (transactions_seq s, row)).
Proof.
  intros Ha Hu Hs Hfits Hfresh Huser. cbn. unfold createTransaction. rewrite Ha.
  destruct (Z.eqb_spec (td_userId d) 0) as [?|_]; [contradiction|].
  cbn. rewrite Hs. cbn.
  unfold insert_transaction, bind, get. cbn.
  rewrite numeric_10_2_holds by exact Hfits. rewrite Hfresh, Huser. reflexivity.
Qed.

(** [C1], counterexample ([updateUserBalance]).  User 1 holds
    $99,999,990.00; a delta of $10.00 makes the sum $100,000,000.00,
    which is not negative.  The call throws the error of the database,
    the row is the one before the call, and the balance is not the old
    balance plus the delta. *)
Lemma updateUserBalance_beyond_column :
  users full_db !! 1 = Some (mkUser 9999999000 RoleUser 0) /\
  0 <= 9999999000 + 1000 /\
  updateUserBalance 5 1 (Num 1000) full_db = (full_db, inl NumericRefused) /\
  balanceOf (fst (updateUserBalance 5 1 (Num 1000) full_db)) 1 <> 9999999000 + 1000.
Proof.
  split; [reflexivity|]. split; [lia|]. split; [reflexivity|].
  vm_compute. discriminate.
Qed.

(** [C1], amended ([updateUserBalance]).  For a user [id] with row [u]
    and a delta that is a number: when [balance u + delta] is not
    negative and below 100,000,000.00, the call returns the updated row,
    the only statement issued writes [balance u + delta] to that user and
    the new balance is [balance u + delta]; when the sum is negative the
    call throws "Insufficient balance"; when it is 100,000,000.00 or
    more, the column refuses it and the call throws the database's
    error.  In both failures the database, journal included, is the one
    before the call, so the balance is not written. *)
Theorem updateUserBalance_adjusts_within_column now id delta s u :
  users s !! id = Some u ->
  (0 <= balance u + delta < 10000000000 ->
   exists s',
     updateUserBalance now id (Num delta) s =
       (s', inr (Some (set_balance (balance u + delta) now u))) /\
     users s' = <[id := set_balance (balance u + delta) now u]> (users s) /\
     balanceOf s' id = balance u + delta /\
     issued s s' = [WUserBalance id (balance u + delta) now]) /\
  (balance u + delta < 0 ->
   updateUserBalance now id (Num delta) s = (s, inl InsufficientBalance)) /\
  (10000000000 <= balance u + delta ->
   updateUserBalance now id (Num delta) s = (s, inl NumericRefused)).
Proof.
  intros Hu. split; [|split].
  - intros Hge. eexists. split; [apply (updateUserBalance_ok _ _ _ _ _ Hu Hge)|].
    split; [|split].
    + cbn. apply map_eq. intros k. rewrite lookup_alter, lookup_insert.
      destruct (decide (id = k)) as [<-|Hne]; [rewrite Hu; reflexivity|reflexivity].
    + unfold balanceOf. cbn. rewrite lookup_alter_eq, Hu. reflexivity.
    + unfold issued. cbn. rewrite drop_app_length. reflexivity.
  - apply updateUserBalance_insufficient; assumption.
  - apply updateUserBalance_overflow; assumption.
Qed.

Lemma updateUserBalance_adjusts_within_column_witness :
  (exists s',
     updateUserBalance 5 1 (Num (-4000)) sample_db =
       (s', inr (Some (set_balance 6000 5 (mkUser 10000 RoleUser 0)))) /\
     balanceOf s' 1 = 6000) /\
  updateUserBalance 5 3 (Num (-4000)) sample_db = (sample_db, inl InsufficientBalance) /\
  updateUserBalance 5 1 (Num 6000) full_db = (full_db, inl NumericRefused).
Proof.
  split; [|split].
  - destruct (updateUserBalance_adjusts_within_column 5 1 (-4000) sample_db
                (mkUser 10000 RoleUser 0)) as [Hok _]; [reflexivity|].
    destruct Hok as (s' & Hrun & _ & Hbal & _); [cbn; lia|].
    exists s'. split; [exact Hrun|exact Hbal].
  - destruct (updateUserBalance_adjusts_within_column 5 3 (-4000) sample_db
                (mkUser 1000 RoleUser 0)) as (_ & Hfail & _); [reflexivity|].
    apply Hfail. cbn. lia.
  - destruct (updateUserBalance_adjusts_within_column 5 1 6000 full_db
                (mkUser 9999999000 RoleUser 0)) as (_ & _ & Hfail); [reflexivity|].
    apply Hfail. cbn. lia.
Defined.

(** ** Deposits and withdrawal requests *)



(** [C3], counterexample (POST /api/transactions/withdraw).  User 3 holds
    $10.00 and asks for $20.00: the amount exceeds the balance, yet the
    answer is the minimum-amount message, not "Insufficient balance",
    because the minimum is tested first. *)
Lemma withdraw_above_balance_below_minimum :
  users sample_db !! 3 = Some (mkUser 1000 RoleUser 0) /\
  to_number (dollars 20) = 2000 /\
  1000 < 2000 /\
  post_withdraw decimal_column_min1 9 3 (dollars 20) None None None sample_db =
    (sample_db, (400, JMessage "Minimum withdrawal amount is $50")) /\
  snd (post_withdraw decimal_column_min1 9 3 (dollars 20) None None None sample_db) <>
    (400, JMessage "Insufficient balance").
Proof.
  split; [reflexivity|]. split; [reflexivity|]. split; [lia|]. split; [reflexivity|].
  cbn. intros H. inversion H.
Qed.

(** [C3], amended.  For an existing user [userId] with row [u], and an
    amount that is a JSON number or a decimal string [amount]: a request
    of at least $50 above the balance answers 400 "Insufficient balance";
    a request below $50 answers 400 with the minimum-amount message
    whatever the balance; in both cases the database is unchanged, so no
    transaction is created.  A request of at least $50 and at most the
    balance (the balance itself included) whose amount is the decimal
    string [text] answers 201, inserts a withdrawal in status pending and
    lowers the balance by the amount at once, when [userId] is not 0, the
    balance is below 100,000,000.00 and the next serial value of
    [transactions] is unused. *)
Theorem withdraw_reserves_or_refuses now userId text amount currency wallet reason s u :
  users s !! userId = Some u ->
  (5000 <= text_cents text <= balance u ->
   userId <> 0 -> balance u < 10000000000 ->
   transactions s !! transactions_seq s = None ->
   let id := transactions_seq s in
   let row := mkTransaction userId Withdrawal (text_cents text)
                (or_else currency (Some "USD"%string))
                (or_else wallet None) (or_else reason None) Pending now in
   exists s',
     post_withdraw decimal_column_min1 now userId (Str text) currency wallet reason s =
       (s', (201, JTransaction id (Some row))) /\
     transactions s' = <[id := row]> (transactions s) /\
     balanceOf s' userId = balance u - text_cents text /\
     issued s s' = [WInsertTransaction id row;
                    WUserBalance userId (balance u - text_cents text) now]) /\
  (5000 <= to_number amount -> balance u < to_number amount ->
   post_withdraw decimal_column_min1 now userId amount currency wallet reason s =
     (s, (400, JMessage "Insufficient balance"))) /\
  (to_number amount < 5000 ->
   post_withdraw decimal_column_min1 now userId amount currency wallet reason s =
     (s, (400, JMessage "Minimum withdrawal amount is $50"))).
Proof.
  intros Hu. split; [|split].
  - intros [Hmin Hle] Hid Hcol Hfresh. cbn zeta. unfold post_withdraw, try_catch.
    cbn [to_number].
    destruct (Z.ltb_spec (text_cents text) 5000) as [?|_]; [lia|].
    erewrite bind_ok; [|unfold findFirst_user, bind, get, ret; reflexivity].
    rewrite Hu. destruct (Z.ltb_spec (balance u) (text_cents text)) as [?|_]; [lia|].
    erewrite bind_ok;
      [|apply (createTransaction_ok decimal_column_min1 now _ s u); cbn;
        try assumption; try reflexivity; lia].
    unfold negate. cbn [to_number td_amount].
    erewrite bind_ok; [|apply updateUserBalance_ok; [cbn; exact Hu|lia]].
    cbn. eexists. split; [reflexivity|]. cbn. split; [reflexivity|]. split.
    + unfold balanceOf. cbn. rewrite lookup_alter_eq, Hu. cbn. lia.
    + unfold issued. cbn. rewrite <- app_assoc, drop_app_length.
      replace (balance u + - text_cents text) with (balance u - text_cents text) by lia.
      reflexivity.
  - intros Hmin Hlt. unfold post_withdraw, try_catch.
    destruct (Z.ltb_spec (to_number amount) 5000) as [?|_]; [lia|].
    erewrite bind_ok; [|unfold findFirst_user, bind, get, ret; reflexivity].
    rewrite Hu. destruct (Z.ltb_spec (balance u) (to_number amount)) as [_|?];
      [reflexivity|lia].
  - intros Hlt. unfold post_withdraw, try_catch.
    destruct (Z.ltb_spec (to_number amount) 5000) as [_|?]; [reflexivity|lia].
Qed.

Lemma withdraw_reserves_or_refuses_witness :
  (exists s',
     post_withdraw decimal_column_min1 9 1 (dollars 100) None None None sample_db =
       (s', (201, JTransaction 2
                    (Some (mkTransaction 1 Withdrawal 10000 (Some "USD"%string) None None
                             Pending 9)))) /\
     balanceOf s' 1 = 0) /\
  post_withdraw decimal_column_min1 9 1 (Num 10001) None None None sample_db =
    (sample_db, (400, JMessage "Insufficient balance")) /\
  post_withdraw decimal_column_min1 9 1 (dollars 49) None None None sample_db =
    (sample_db, (400, JMessage "Minimum withdrawal amount is $50")).
Proof.
  split; [|split].
  - destruct (withdraw_reserves_or_refuses 9 1
                (mkDecimalText false One [Zero; Zero] NoPoint) (Num 0) None None None sample_db
                (mkUser 10000 RoleUser 0)) as [Hok _]; [reflexivity|].
    destruct Hok as (s' & Hrun & _ & Hbal & _);
      [cbn; lia|lia|cbn; lia|reflexivity|].
    exists s'. split; [exact Hrun|exact Hbal].
  - destruct (withdraw_reserves_or_refuses 9 1
                (mkDecimalText false One [Zero; Zero] NoPoint) (Num 10001) None None None sample_db
                (mkUser 10000 RoleUser 0)) as (_ & Hfail & _); [reflexivity|].
    apply Hfail; cbn; lia.
  - destruct (withdraw_reserves_or_refuses 9 1
                (mkDecimalText false One [Zero; Zero] NoPoint) (dollars 49) None None None sample_db
                (mkUser 10000 RoleUser 0)) as (_ & _ & Hlow); [reflexivity|].
    apply Hlow; cbn; lia.
Defined.

(** ** Approval and rejection of withdrawals *)

Lemma findFirst_pending_withdrawal_found id s t :
  transactions s !! id = Some t -> tx_type t = Withdrawal -> tx_status t = Pending ->
  findFirst_pending_withdrawal id s = (s, inr (Some t)).
Proof.
  intros Ht Hty Hst. unfold findFirst_pending_withdrawal, bind, get, ret. rewrite Ht.
  destruct (decide (tx_type t = Withdrawal /\ tx_status t = Pending)) as [_|Hn];
    [reflexivity|tauto].
Qed.

Lemma findFirst_pending_withdrawal_settled id s t :
  transactions s !! id = Some t -> tx_status t <> Pending ->
  findFirst_pending_withdrawal id s = (s, inr None).
Proof.
  intros Ht Hst. unfold findFirst_pending_withdrawal, bind, get, ret. rewrite Ht.
  destruct (decide (tx_type t = Withdrawal /\ tx_status t = Pending)) as [[_ ?]|_];
    [contradiction|reflexivity].
Qed.

Lemma alter_present {A} (f : A -> A) (m : gmap Z A) id x :
  m !! id = Some x -> alter f id m = <[id := f x]> m.
Proof.
  intros H. apply map_eq. intros k. rewrite lookup_alter, lookup_insert.
  destruct (decide (id = k)) as [<-|_]; [rewrite H; reflexivity|reflexivity].
Qed.

(** [C5], counterexample (PATCH /api/admin/withdrawals/:id/reject).  In
    [full_db] user 1 holds $99,999,990.00 and transaction 1 is a pending
    withdrawal of $60.00.  Its rejection is answered 500: the credit
    would make the balance $100,000,050.00, which the column refuses.
    Nothing is credited and the withdrawal stays pending; a second
    rejection is answered 500 again, not with the error of a withdrawal
    that is no longer pending. *)
Lemma reject_beyond_column :
  transactions full_db !! 1 =
    Some (mkTransaction 1 Withdrawal 6000 (Some "USD"%string) None None Pending 0) /\
  patch_reject 5 1 full_db = (full_db, (500, JMessage "Error rejecting withdrawal request")) /\
  balanceOf (fst (patch_reject 5 1 full_db)) 1 <> balanceOf full_db 1 + 6000 /\
  (tx_status <$> transactions (fst (patch_reject 5 1 full_db)) !! 1) = Some Pending /\
  snd (patch_reject 6 1 (fst (patch_reject 5 1 full_db))) <>
    (404, JMessage "Pending withdrawal request not found").
Proof.
  split; [reflexivity|]. split; [reflexivity|]. split; [vm_compute; discriminate|].
  split; [reflexivity|]. vm_compute. discriminate.
Qed.

(** [C5], amended.  On a pending withdrawal [t] of an existing user whose
    balance plus the amount of [t] is not negative and below
    100,000,000.00, the first rejection answers 200, credits the user's
    balance by the amount (one balance write) and sets the status to
    rejected; a second rejection of the same id answers 404 "Pending
    withdrawal request not found" and leaves the whole database, balance
    and transaction included, as the first left it.  When the balance
    plus the amount is 100,000,000.00 or more, the rejection answers 500
    and leaves the database as it was: no credit, status pending. *)
Theorem reject_twice_credits_once_within_column now1 now2 id s t u :
  transactions s !! id = Some t ->
  tx_type t = Withdrawal -> tx_status t = Pending ->
  users s !! tx_userId t = Some u ->
  (0 <= balance u + tx_amount t < 10000000000 ->
   exists s1,
     patch_reject now1 id s =
       (s1, (200, JTransaction id (Some (set_status Rejected now1 t)))) /\
     transactions s1 = <[id := set_status Rejected now1 t]> (transactions s) /\
     balanceOf s1 (tx_userId t) = balance u + tx_amount t /\
     issued s s1 = [WUserBalance (tx_userId t) (balance u + tx_amount t) now1;
                    WTransactionStatus id Rejected now1] /\
     patch_reject now2 id s1 =
       (s1, (404, JMessage "Pending withdrawal request not found"))) /\
  (10000000000 <= balance u + tx_amount t ->
   patch_reject now1 id s = (s, (500, JMessage "Error rejecting withdrawal request"))).
Proof.
  intros Ht Hty Hst Hu. split.
  - intros Hsum.
    unfold patch_reject at 1. unfold try_catch.
    erewrite bind_ok; [|apply (findFirst_pending_withdrawal_found _ _ _ Ht Hty Hst)].
    cbv beta iota.
    erewrite bind_ok; [|apply (updateUserBalance_ok _ _ _ _ _ Hu); lia].
    erewrite bind_ok; [|unfold updateTransactionStatus, bind, exec, get, ret; reflexivity].
    unfold ret. cbn. rewrite lookup_alter_eq, Ht. cbn.
    eexists. split; [reflexivity|]. cbn. split; [|split; [|split]].
    + apply alter_present. exact Ht.
    + unfold balanceOf. cbn. rewrite lookup_alter_eq, Hu. reflexivity.
    + unfold issued. cbn. rewrite <- app_assoc, drop_app_length. reflexivity.
    + unfold patch_reject, try_catch.
      erewrite bind_ok;
        [|apply (findFirst_pending_withdrawal_settled id _ (set_status Rejected now1 t));
          [cbn; rewrite lookup_alter_eq, Ht; reflexivity|cbn; discriminate]].
      reflexivity.
  - intros Hsum. unfold patch_reject, try_catch.
    erewrite bind_ok; [|apply (findFirst_pending_withdrawal_found _ _ _ Ht Hty Hst)].
    cbv beta iota.
    erewrite bind_throw; [reflexivity|].
    apply (updateUserBalance_overflow _ _ _ _ _ Hu Hsum).
Qed.

Lemma reject_twice_credits_once_within_column_witness :
  (exists s1,
     fst (patch_reject 5 1 sample_db) = s1 /\
     balanceOf s1 1 = 16000 /\
     patch_reject 6 1 s1 = (s1, (404, JMessage "Pending withdrawal request not found"))) /\
  patch_reject 5 1 full_db = (full_db, (500, JMessage "Error rejecting withdrawal request")).
Proof.
  split.
  - destruct (reject_twice_credits_once_within_column 5 6 1 sample_db
                (mkTransaction 1 Withdrawal 6000 (Some "USD"%string) None None Pending 0)
                (mkUser 10000 RoleUser 0)) as [Hok _];
      [reflexivity|reflexivity|reflexivity|reflexivity|].
    destruct Hok as (s1 & Hrun & _ & Hbal & _ & Hagain); [cbn; lia|].
    exists s1. split; [rewrite Hrun; reflexivity|]. split; [exact Hbal|exact Hagain].
  - destruct (reject_twice_credits_once_within_column 5 6 1 full_db
                (mkTransaction 1 Withdrawal 6000 (Some "USD"%string) None None Pending 0)
                (mkUser 9999999000 RoleUser 0)) as [_ Hfail];
      [reflexivity|reflexivity|reflexivity|reflexivity|].
    apply Hfail. cbn. lia.
Defined.

(** [C6] (PATCH /api/admin/withdrawals/:id/approve).  Approving a pending
    withdrawal [t] answers 200 and issues one statement, which sets the
    status of [t] to completed (and its [updatedAt]); the [users] table,
    hence every balance, the investments and every other transaction are
    unchanged.  A second approval of the same id answers 404 and leaves
    the database as the first left it: status, [updatedAt] and balances
    included. *)
Theorem approve_completes_without_balance_effect now1 now2 id s t :
  transactions s !! id = Some t ->
  tx_type t = Withdrawal -> tx_status t = Pending ->
  exists s1,
    patch_approve now1 id s =
      (s1, (200, JTransaction id (Some (set_status Completed now1 t)))) /\
    s1 = replay [WTransactionStatus id Completed now1] s /\
    transactions s1 = <[id := set_status Completed now1 t]> (transactions s) /\
    users s1 = users s /\
    investments s1 = investments s /\
    issued s s1 = [WTransactionStatus id Completed now1] /\
    patch_approve now2 id s1 =
      (s1, (404, JMessage "Pending withdrawal request not found")).
Proof.
  intros Ht Hty Hst.
  unfold patch_approve at 1. unfold try_catch.
  erewrite bind_ok; [|apply (findFirst_pending_withdrawal_found _ _ _ Ht Hty Hst)].
  cbv beta iota.
  erewrite bind_ok; [|unfold updateTransactionStatus, bind, exec, get, ret; reflexivity].
  unfold ret. cbn. rewrite lookup_alter_eq, Ht. cbn.
  eexists. split; [reflexivity|]. split; [reflexivity|].
  cbn. split; [|split; [|split; [|split]]].
  - apply alter_present. exact Ht.
  - reflexivity.
  - reflexivity.
  - unfold issued. cbn. rewrite drop_app_length. reflexivity.
  - unfold patch_approve, try_catch.
    erewrite bind_ok;
      [|apply (findFirst_pending_withdrawal_settled id _ (set_status Completed now1 t));
        [cbn; rewrite lookup_alter_eq, Ht; reflexivity|cbn; discriminate]].
    reflexivity.
Qed.

Lemma approve_completes_without_balance_effect_witness :
  exists s1,
    fst (patch_approve 5 1 sample_db) = s1 /\
    users s1 = users sample_db /\
    (tx_status <$> transactions s1 !! 1) = Some Completed /\
    patch_approve 6 1 s1 = (s1, (404, JMessage "Pending withdrawal request not found")).
Proof.
  destruct (approve_completes_without_balance_effect 5 6 1 sample_db
              (mkTransaction 1 Withdrawal 6000 (Some "USD"%string) None None Pending 0))
    as (s1 & Hrun & _ & Htx & Hus & _ & _ & Hagain);
    [reflexivity|reflexivity|reflexivity|].
  exists s1. split; [rewrite Hrun; reflexivity|]. split; [exact Hus|].
  split; [rewrite Htx, lookup_insert_eq; reflexivity|exact Hagain].
Defined.

(** ** Investments *)

Lemma createInvestment_ok schema now d s u plan :
  id_userId d <> 0 -> id_planId d <> 0 -> falsy (id_amount d) = false ->
  schema (id_amount d) = true ->
  -10000000000 < to_number (id_amount d) < 10000000000 ->
  investments s !! investments_seq s = None ->
  users s !! id_userId d = Some u ->
  investmentPlans s !! id_planId d = Some plan ->
  let row := mkInvestment (id_userId d) (id_planId d) (to_number (id_amount d))
               (default now (id_startDate d)) (default true (id_isActive d)) in
  let w := WInsertInvestment (investments_seq s) row in
  createInvestment schema now d s =
    (record_write w (apply_write w s), inr (investments_seq s, row)).
Proof.
  intros Hu Hp Ha Hs Hfits Hfresh Huser Hplan. cbn. unfold createInvestment.
  destruct (Z.eqb_spec (id_userId d) 0) as [?|_]; [contradiction|].
  destruct (Z.eqb_spec (id_planId d) 0) as [?|_]; [contradiction|].
  rewrite Ha. cbn. rewrite Hs. cbn.
  unfold insert_investment, bind, get. cbn.
  rewrite numeric_10_2_holds by exact Hfits. rewrite Hfresh, Huser, Hplan. reflexivity.
Qed.

(** [C4], counterexample (POST /api/investments).  User 1 holds $100.00
    and invests "100" in plan 1: the request succeeds with two
    statements, the insertion of the investment first and the balance
    write second.  No balance write precedes the insertion, and after the
    first statement alone the investment row exists while the balance is
    still $100.00, a state that is neither the one before the request nor
    the one after it. *)
Lemma invest_inserts_before_debit :
  let s' := fst (post_investments decimal_column_min1 9 1 1 (dollars 100) sample_db) in
  let ws := issued sample_db s' in
  snd (post_investments decimal_column_min1 9 1 1 (dollars 100) sample_db) =
    (201, JInvestment 1 (mkInvestment 1 1 10000 9 true)) /\
  ws = [WInsertInvestment 1 (mkInvestment 1 1 10000 9 true); WUserBalance 1 0 9] /\
  ~ debit_precedes_insert ws /\
  ~ atomic_unit sample_db ws.
Proof.
  cbn zeta.
  assert (Hws : issued sample_db
                  (fst (post_investments decimal_column_min1 9 1 1 (dollars 100) sample_db)) =
                [WInsertInvestment 1 (mkInvestment 1 1 10000 9 true); WUserBalance 1 0 9])
    by reflexivity.
  rewrite Hws. split; [reflexivity|]. split; [reflexivity|]. split.
  - intros (i & j & w1 & w2 & H1 & H2 & Hd & Hi & Hlt).
    destruct i as [|[|i]]; cbn in H1; try discriminate.
    + inversion H1; subst w1. discriminate Hd.
    + destruct j as [|[|j]]; cbn in H2; try discriminate; lia.
  - intros Hatomic. specialize (Hatomic 1%nat). cbn zeta in Hatomic.
    destruct Hatomic as [[_ Hinv]|[Hus _]].
    + apply (f_equal (fun m => m !! 1)) in Hinv. vm_compute in Hinv. discriminate Hinv.
    + apply (f_equal (fun m => balance <$> m !! 1)) in Hus. vm_compute in Hus.
      discriminate Hus.
Qed.

(** [C4], amended.  Once the plan is found and the amount, a JSON number
    or a decimal string, is within its bounds: if the balance is below
    the amount, or the user row is missing, the request answers 400
    "Insufficient balance" and the database is unchanged: the balance is
    not written and no Investment row is created.  If the balance covers
    the amount and the amount is a decimal string, the request answers
    201 after two separate statements, first the insertion of the
    Investment row, then the balance write of [updateUserBalance]
    lowering the balance by the amount; this when the user id and the
    plan id are not 0, the amount is not negative, the balance is below
    100,000,000.00 and the next serial value of [investments] is
    unused. *)
Theorem invest_inserts_then_debits now userId planId text amount s plan :
  investmentPlans s !! planId = Some plan ->
  (minAmount plan <= text_cents text <= maxAmount plan ->
   forall u, users s !! userId = Some u ->
     0 <= text_cents text <= balance u -> balance u < 10000000000 ->
     userId <> 0 -> planId <> 0 ->
     investments s !! investments_seq s = None ->
     let id := investments_seq s in
     let row := mkInvestment userId planId (text_cents text) now true in
     let ws := [WInsertInvestment id row;
                WUserBalance userId (balance u - text_cents text) now] in
     exists s',
       post_investments decimal_column_min1 now userId planId (Str text) s =
         (s', (201, JInvestment id row)) /\
       issued s s' = ws /\
       investments s' = <[id := row]> (investments s) /\
       users s' = users (replay ws s) /\
       balanceOf s' userId = balance u - text_cents text) /\
  (minAmount plan <= to_number amount <= maxAmount plan ->
   forall u, users s !! userId = Some u -> balance u < to_number amount ->
     post_investments decimal_column_min1 now userId planId amount s =
       (s, (400, JMessage "Insufficient balance"))) /\
  (minAmount plan <= to_number amount <= maxAmount plan ->
   users s !! userId = None ->
     post_investments decimal_column_min1 now userId planId amount s =
       (s, (400, JMessage "Insufficient balance"))).
Proof.
  intros Hplan.
  assert (Hstart : forall a (k : option User -> M Response),
             minAmount plan <= to_number a <= maxAmount plan ->
             bind (findFirst_plan planId)
               (fun p => match p with
                         | None => ret (404, JMessage "Investment plan not found")
                         | Some plan0 =>
                             if (to_number a <? minAmount plan0)
                                || (to_number a >? maxAmount plan0)
                             then ret (400, JAmountBetween (minAmount plan0) (maxAmount plan0))
                             else bind (findFirst_user userId) k
                         end) s = k (users s !! userId) s).
  { intros a k [Hlo Hhi]. unfold findFirst_plan, findFirst_user, bind, get, ret.
    rewrite Hplan.
    destruct (Z.ltb_spec (to_number a) (minAmount plan)) as [?|_]; [lia|].
    destruct (Z.gtb_spec (to_number a) (maxAmount plan)) as [?|_]; [lia|]. reflexivity. }
  split; [|split].
  - intros Hin u Hu [Hpos Hbal] Hcol Hid Hpid Hfresh. cbn zeta.
    unfold post_investments, try_catch. rewrite Hstart by exact Hin. rewrite Hu.
    cbn [to_number].
    destruct (Z.ltb_spec (balance u) (text_cents text)) as [?|_]; [lia|].
    erewrite bind_ok;
      [|apply (createInvestment_ok decimal_column_min1 now _ s u plan); cbn;
        try assumption; try reflexivity; lia].
    unfold negate. cbn [to_number id_amount].
    erewrite bind_ok; [|apply updateUserBalance_ok; [cbn; exact Hu|lia]].
    cbn. replace (balance u + - text_cents text) with (balance u - text_cents text) by lia.
    eexists. split; [reflexivity|]. split; [|split; [|split]].
    + unfold issued. cbn. rewrite <- app_assoc, drop_app_length. reflexivity.
    + reflexivity.
    + reflexivity.
    + unfold balanceOf. cbn. rewrite lookup_alter_eq, Hu. reflexivity.
  - intros Hin u Hu Hlt. unfold post_investments, try_catch.
    rewrite Hstart by exact Hin. rewrite Hu.
    destruct (Z.ltb_spec (balance u) (to_number amount)) as [_|?]; [reflexivity|lia].
  - intros Hin Hu. unfold post_investments, try_catch.
    rewrite Hstart by exact Hin. rewrite Hu. reflexivity.
Qed.

Lemma invest_inserts_then_debits_witness :
  post_investments decimal_column_min1 9 1 1 (dollars 150) sample_db =
    (sample_db, (400, JMessage "Insufficient balance")) /\
  snd (post_investments decimal_column_min1 9 1 1 (dollars 100) sample_db) =
    (201, JInvestment 1 (mkInvestment 1 1 10000 9 true)).
Proof.
  destruct (invest_inserts_then_debits 9 1 1 (mkDecimalText false One [Zero; Zero] NoPoint)
              (dollars 150) sample_db (mkPlan 10000 20000 Active))
    as (Hok & Hlow & _); [reflexivity|].
  split.
  - apply (Hlow ltac:(cbn; lia) (mkUser 10000 RoleUser 0)); [reflexivity|cbn; lia].
  - destruct (Hok ltac:(cbn; lia) (mkUser 10000 RoleUser 0)) as (s' & Hrun & _);
      [reflexivity|cbn; lia|cbn; lia|lia|lia|reflexivity|].
    exact (f_equal snd Hrun).
Defined.

(** ** Running a request *)

Arguments plus : simpl never.
Arguments lt_zero : simpl never.
Arguments stored : simpl never.
Arguments numeric_10_2 : simpl never.
Arguments to_number : simpl never.

Ltac run_request :=
  unfold try_catch, createTransaction, insert_transaction, createInvestment,
    insert_investment, updateTransactionStatus, findFirst_pending_withdrawal,
    findFirst_user, findFirst_plan, updateUserBalance, getUser, bind, get, ret,
    throw, exec, exec_in_engine, refuse;
  repeat (case_match; simplify_eq/=).

Ltac use_lookups :=
  repeat match goal with
         | H : ?m !! ?k = Some _, G : context [?m !! ?k] |- _ =>
             lazymatch G with H => fail | _ => rewrite H in G end
         | H : ?m !! ?k = Some _ |- context [?m !! ?k] => rewrite H
         end.

Ltac unfold_handlers :=
  unfold post_investments, post_deposit, post_withdraw, patch_approve, patch_reject.

Lemma serve_cons tschema ischema r rs s :
  serve tschema ischema (r :: rs) s =
  serve tschema ischema rs (fst (handle tschema ischema r s)).
Proof. reflexivity. Qed.

(** ** Non-negative balances, written by the balance engine only *)











(** ** The ledger equation *)


(** ** The chat branch and the connection registry *)

Import Chat.

Lemma notify_admin_skips chatMessage clientId client srv :
  notify_admin chatMessage clientId client srv = srv.
Proof. reflexivity. Qed.

(** The chat branch sends no frame on any socket. *)
Lemma chat_branch_sends_nothing userId content srv :
  sockets (chat_branch userId content srv) = sockets srv.
Proof.
  unfold chat_branch.
  destruct (insert_chatMessage (parseInt userId) content (db srv)) as [db' [e|chatMessage]];
    [reflexivity|].
  generalize (clients srv) at 2. intros m.
  induction m as [|k c m Hk Hfold IH] using map_first_key_ind; [reflexivity|].
  rewrite map_fold_insert_first_key by assumption. rewrite notify_admin_skips. exact IH.
Qed.

(** [C9], evaluated where it fails.  The administrator, user 2, is
    registered on socket 7, which is open; user 1 sends the chat message
    "hello".  The message is stored as row 1 in status unread, and no
    frame has been sent on the administrator's socket: the role test reads
    [role] on the query object that was not awaited. *)
Theorem chat_stored_but_admin_not_notified :
  let srv := chat_branch "1" (Some "hello"%string) sample_server in
  (role <$> users (db sample_server) !! 2) = Some RoleAdmin /\
  lookup_client "2" sample_server = Some 7%nat /\
  is_open 7 sample_server = true /\
  chatMessages (db srv) !! 1 = Some (mkChatMessage 1 "hello" Unread None None) /\
  (sent <$> sockets srv !! 7%nat) = Some [].
Proof.
  cbn zeta. split; [reflexivity|]. split; [reflexivity|]. split; [reflexivity|].
  split; [reflexivity|].
  rewrite chat_branch_sends_nothing. reflexivity.
Qed.

(** [C10].  A socket [c1] connects with a URL carrying [userId], then a
    second socket [c2] connects with the same [userId] and replaces it in
    [clients]; when the stale socket [c1] closes, its listener deletes the
    entry of [userId]: the lookup returns nothing although [c2] is still
    open. *)
Theorem stale_close_unregisters c1 c2 url1 url2 userId srv :
  split_userId url1 = Some userId ->
  split_userId url2 = Some userId ->
  userId <> ""%string ->
  c1 <> c2 ->
  let registered := on_connection c2 url2 (on_connection c1 url1 srv) in
  let srv' := on_close c1 registered in
  lookup_client userId registered = Some c2 /\
  lookup_client userId srv' = None /\
  (readyState <$> sockets srv' !! c2) = Some OPEN.
Proof.
  intros H1 H2 Hne Hc. cbn zeta. unfold on_connection. rewrite H1, H2.
  destruct userId as [|a rest]; [contradiction|].
  unfold on_close, lookup_client. cbn.
  rewrite (lookup_insert_ne _ c2 c1) by congruence. rewrite (lookup_insert_eq _ c1). cbn.
  rewrite lookup_insert_eq, lookup_delete_eq.
  rewrite lookup_alter_ne by congruence. rewrite lookup_insert_eq. auto.
Qed.

Lemma stale_close_unregisters_witness :
  let registered := on_connection 9 "/ws?userId=1" sample_server in
  lookup_client "1" registered = Some 9%nat /\
  lookup_client "1" (on_close 8 registered) = None /\
  (readyState <$> sockets (on_close 8 registered) !! 9%nat) = Some OPEN.
Proof.
  apply (stale_close_unregisters 8 9 "/ws?userId=1" "/ws?userId=1" "1"
           (on_connection 7 "/ws?userId=2" (mkServer sample_db ∅ ∅ ∅ 0)));
    [reflexivity|reflexivity|discriminate|lia].
Defined.


(** * Further properties *)

(** ** The storage methods and the ledger *)

Lemma handle_transaction_step tschema ischema r s id t :
  transactions s !! id = Some t ->
  let s' := fst (handle tschema ischema r s) in
  transactions s' !! id = Some t \/
  (tx_type t = Withdrawal /\ tx_status t = Pending /\
   exists st now, (st = Completed \/ st = Rejected) /\
                  transactions s' !! id = Some (set_status st now t)).
Proof.
  intros Ht. cbn zeta.
  destruct r; cbn [handle]; unfold_handlers; run_request; try (left; exact Ht).
  all: try (left; rewrite lookup_insert_ne by congruence; exact Ht).
  all: match goal with
       | |- context [alter (set_status ?st ?now) ?k _] =>
           destruct (decide (k = id)) as [->|Hne];
           [ right; simplify_eq; destruct_and?; split; [assumption|]; split; [assumption|];
             exists st, now; split; [auto|]; rewrite lookup_alter_eq, Ht; reflexivity
           | left; rewrite lookup_alter_ne by exact Hne; exact Ht ]
       end.
Qed.

(** [X5].  Over any sequence of requests a stored transaction is never
    deleted; it is either the very same row at the end, or it was a pending
    withdrawal and is now that row with status completed or rejected (and
    the time of that update): user, type, amount, currency, address and
    reason never change, and a settled status is final. *)
Theorem transaction_changes_once tschema ischema rs s id t :
  transactions s !! id = Some t ->
  let s' := serve tschema ischema rs s in
  transactions s' !! id = Some t \/
  (tx_type t = Withdrawal /\ tx_status t = Pending /\
   exists st now, (st = Completed \/ st = Rejected) /\
                  transactions s' !! id = Some (set_status st now t)).
Proof.
  cbn zeta. revert s t. induction rs as [|r rs IH]; intros s t Ht; [left; exact Ht|].
  rewrite serve_cons.
  destruct (handle_transaction_step tschema ischema r s id t Ht)
    as [Hsame|(Hty & Hst & st & now & Hcase & Hnew)].
  - apply IH, Hsame.
  - right. split; [exact Hty|]. split; [exact Hst|]. exists st, now. split; [exact Hcase|].
    destruct (IH _ _ Hnew) as [Hkeep|(_ & Hpending & _)]; [exact Hkeep|].
    cbn in Hpending. destruct Hcase; congruence.
Qed.

Lemma handle_serials tschema ischema r s :
  serials_ahead s ->
  let s' := fst (handle tschema ischema r s) in
  serials_ahead s' /\
  transactions_seq s <= transactions_seq s' /\
  investments_seq s <= investments_seq s'.
Proof.
  intros [Htx Hinv]. cbn zeta. unfold serials_ahead, map_Forall in *.
  destruct r; cbn [handle]; unfold_handlers; run_request;
    (split; [split|split; lia]); intros k x Hx;
    try (apply lookup_insert_Some in Hx; destruct Hx as [[<- <-]|[_ Hx]]; [lia|]);
    try (apply lookup_alter_Some in Hx; destruct Hx as [(_ & y & Hx & _)|[_ Hx]]);
    try (apply Htx in Hx); try (apply Hinv in Hx); lia.
Qed.

(** [X6].  If every key of [transactions] and [investments] is below the
    next value of its serial, this still holds after any sequence of
    requests, and the serials never go back. *)
Theorem serials_stay_ahead tschema ischema rs s :
  serials_ahead s ->
  let s' := serve tschema ischema rs s in
  serials_ahead s' /\
  transactions_seq s <= transactions_seq s' /\
  investments_seq s <= investments_seq s'.
Proof.
  cbn zeta. revert s. induction rs as [|r rs IH]; intros s Hs; [cbn; split; [exact Hs|lia]|].
  rewrite serve_cons.
  destruct (handle_serials tschema ischema r s Hs) as (Hs' & H1 & H2).
  destruct (IH _ Hs') as (Hs'' & H3 & H4). split; [exact Hs''|lia].
Qed.

Lemma handle_roles tschema ischema r s :
  let s' := fst (handle tschema ischema r s) in
  (forall k, (role <$> users s' !! k) = (role <$> users s !! k)) /\
  investmentPlans s' = investmentPlans s.
Proof.
  cbn zeta.
  destruct r; cbn [handle]; unfold_handlers; run_request; (split; [|reflexivity]);
    intros k; try reflexivity;
    match goal with
    | |- context [alter _ ?j _ !! k] =>
        destruct (decide (j = k)) as [<-|Hne];
        [rewrite lookup_alter_eq; use_lookups|rewrite lookup_alter_ne by exact Hne];
        reflexivity
    end.
Qed.

(** [X7].  No sequence of deposits, withdrawals, approvals, rejections and
    investments creates or deletes a user, changes a role, or touches the
    investment plans. *)
Theorem users_and_plans_fixed tschema ischema rs s :
  let s' := serve tschema ischema rs s in
  (forall k, (role <$> users s' !! k) = (role <$> users s !! k)) /\
  investmentPlans s' = investmentPlans s.
Proof.
  cbn zeta. revert s. induction rs as [|r rs IH]; intros s; [split; reflexivity|].
  rewrite serve_cons.
  destruct (handle_roles tschema ischema r s) as [Hr Hp].
  destruct (IH (fst (handle tschema ischema r s))) as [Hr' Hp'].
  split; [intros k; rewrite Hr'; apply Hr|rewrite Hp'; exact Hp].
Qed.

Lemma handle_references tschema ischema r s :
  references_hold s -> references_hold (fst (handle tschema ischema r s)).
Proof.
  intros [Htx Hinv]. unfold references_hold, map_Forall in *.
  destruct r; cbn [handle]; unfold_handlers; run_request; split; intros k x Hx;
    rewrite ?lookup_alter_is_Some;
    try (apply lookup_insert_Some in Hx; destruct Hx as [[<- <-]|[_ Hx]]; cbn; eauto);
    try (apply lookup_alter_Some in Hx;
         destruct Hx as [(_ & y & Hy & ->)|[_ Hx]]; cbn; eauto);
    eauto.
Qed.

(** [X9].  If every transaction and investment refers to an existing user
    (and plan), this still holds after any sequence of requests. *)
Theorem references_stay_valid tschema ischema rs s :
  references_hold s -> references_hold (serve tschema ischema rs s).
Proof.
  revert s. induction rs as [|r rs IH]; intros s Hs; [exact Hs|].
  rewrite serve_cons. apply IH, handle_references, Hs.
Qed.

(** [X12].  When [id] is not the id of a pending withdrawal (no such row, a
    deposit or profit, or a settled withdrawal), approval and rejection
    both answer 404 and leave the database unchanged. *)
Theorem settlement_needs_pending_withdrawal now id s :
  (forall t, transactions s !! id = Some t ->
             tx_type t <> Withdrawal \/ tx_status t <> Pending) ->
  patch_approve now id s = (s, (404, JMessage "Pending withdrawal request not found")) /\
  patch_reject now id s = (s, (404, JMessage "Pending withdrawal request not found")).
Proof.
  intros Hnot.
  assert (Hfind : findFirst_pending_withdrawal id s = (s, inr None)).
  { unfold findFirst_pending_withdrawal, bind, get, ret.
    destruct (transactions s !! id) as [t|] eqn:Ht; [|reflexivity].
    destruct (decide (tx_type t = Withdrawal /\ tx_status t = Pending)) as [[? ?]|_];
      [|reflexivity].
    destruct (Hnot t eq_refl); contradiction. }
  unfold patch_approve, patch_reject, try_catch.
  rewrite !(bind_ok _ _ _ _ _ Hfind). split; reflexivity.
Qed.




(** [X2].  Two adjustments of the same user by numbers, each leaving the
    balance non-negative and below 100,000,000.00, succeed one after the
    other; the balance ends at [balance + d1 + d2] and the [users] table
    is the one a single adjustment by [d1 + d2] at the second time
    gives. *)
Theorem updateUserBalance_twice now1 now2 id d1 d2 s u :
  users s !! id = Some u ->
  0 <= balance u + d1 < 10000000000 ->
  0 <= balance u + d1 + d2 < 10000000000 ->
  exists s1 s2 r1 r2,
    updateUserBalance now1 id (Num d1) s = (s1, inr r1) /\
    updateUserBalance now2 id (Num d2) s1 = (s2, inr r2) /\
    balanceOf s2 id = balance u + d1 + d2 /\
    users s2 = users (fst (updateUserBalance now2 id (Num (d1 + d2)) s)).
Proof.
  intros Hu H1 H2.
  rewrite (updateUserBalance_ok now1 id d1 s u Hu H1).
  eexists _, _, _, _. split; [reflexivity|].
  rewrite (updateUserBalance_ok now2 id d2 _ (set_balance (balance u + d1) now1 u));
    [| cbn; rewrite lookup_alter_eq, Hu; reflexivity | unfold set_balance; cbn; lia].
  split; [reflexivity|].
  rewrite (updateUserBalance_ok now2 id (d1 + d2) s u Hu) by lia.
  cbn. split.
  - unfold balanceOf. cbn. rewrite !lookup_alter_eq, Hu. reflexivity.
  - apply map_eq. intros k. destruct (decide (id = k)) as [<-|Hne].
    + rewrite !lookup_alter_eq, Hu. cbn. unfold set_balance. cbn.
      rewrite Z.add_assoc. reflexivity.
    + rewrite !lookup_alter_ne by exact Hne. reflexivity.
Qed.



(** [X10].  A request answered 400 or 404 leaves the database exactly as
    it was, serials included; the only other answers are 200, 201 and
    500. *)
Theorem refused_request_changes_nothing tschema ischema r s :
  let '(s', (code, _)) := handle tschema ischema r s in
  (code = 400 \/ code = 404 -> s' = s) /\
  (code = 200 \/ code = 201 \/ code = 400 \/ code = 404 \/ code = 500).
Proof.
  destruct r; cbn [handle]; unfold_handlers; run_request;
    (split; [intros [?|?]; first [reflexivity|discriminate]|auto 6]).
Qed.

(** ** The ledger without deposits *)














(** ** Approval and rejection: edges and composition *)

Lemma patch_approve_pending now id s t :
  transactions s !! id = Some t -> tx_type t = Withdrawal -> tx_status t = Pending ->
  patch_approve now id s =
    (replay [WTransactionStatus id Completed now] s,
     (200, JTransaction id (Some (set_status Completed now t)))).
Proof.
  intros Ht Hty Hst. unfold patch_approve, try_catch.
  erewrite bind_ok; [|apply (findFirst_pending_withdrawal_found _ _ _ Ht Hty Hst)].
  cbv beta iota.
  erewrite bind_ok; [|unfold updateTransactionStatus, bind, exec, get, ret; reflexivity].
  unfold ret. cbn. rewrite lookup_alter_eq, Ht. reflexivity.
Qed.

Lemma patch_reject_pending now id s t u :
  transactions s !! id = Some t -> tx_type t = Withdrawal -> tx_status t = Pending ->
  users s !! tx_userId t = Some u -> 0 <= balance u + tx_amount t < 10000000000 ->
  let w := WUserBalance (tx_userId t) (balance u + tx_amount t) now in
  patch_reject now id s =
    (replay [WTransactionStatus id Rejected now] (record_engine w (replay [w] s)),
     (200, JTransaction id (Some (set_status Rejected now t)))).
Proof.
  intros Ht Hty Hst Hu Hge. unfold patch_reject, try_catch.
  erewrite bind_ok; [|apply (findFirst_pending_withdrawal_found _ _ _ Ht Hty Hst)].
  cbv beta iota.
  erewrite bind_ok; [|apply (updateUserBalance_ok _ _ _ _ _ Hu Hge)].
  erewrite bind_ok; [|unfold updateTransactionStatus, bind, exec, get, ret; reflexivity].
  unfold ret. cbn. rewrite lookup_alter_eq, Ht. reflexivity.
Qed.

(** [X13].  Approval and rejection exclude each other: after a pending
    withdrawal is approved its rejection answers 404, so no balance is
    credited; after it is rejected, which takes a balance that with the
    amount is not negative and below 100,000,000.00, its approval answers
    404 and the status stays rejected. *)
Theorem settled_withdrawal_is_final now1 now2 id s t :
  transactions s !! id = Some t -> tx_type t = Withdrawal -> tx_status t = Pending ->
  (let s1 := fst (patch_approve now1 id s) in
   patch_reject now2 id s1 = (s1, (404, JMessage "Pending withdrawal request not found")) /\
   users s1 = users s /\
   (tx_status <$> transactions s1 !! id) = Some Completed) /\
  (forall u, users s !! tx_userId t = Some u ->
   0 <= balance u + tx_amount t < 10000000000 ->
   let s1 := fst (patch_reject now1 id s) in
   patch_approve now2 id s1 = (s1, (404, JMessage "Pending withdrawal request not found")) /\
   (tx_status <$> transactions s1 !! id) = Some Rejected).
Proof.
  intros Ht Hty Hst. split.
  - cbn zeta. rewrite (patch_approve_pending now1 id s t Ht Hty Hst). cbn [fst].
    split; [|split].
    + unfold patch_reject, try_catch.
      erewrite bind_ok;
        [|apply (findFirst_pending_withdrawal_settled id _ (set_status Completed now1 t));
          [cbn; rewrite lookup_alter_eq, Ht; reflexivity|cbn; discriminate]].
      reflexivity.
    + reflexivity.
    + cbn. rewrite lookup_alter_eq, Ht. reflexivity.
  - intros u Hu Hge. cbn zeta.
    rewrite (patch_reject_pending now1 id s t u Ht Hty Hst Hu Hge). cbn [fst]. split.
    + unfold patch_approve, try_catch.
      erewrite bind_ok;
        [|apply (findFirst_pending_withdrawal_settled id _ (set_status Rejected now1 t));
          [cbn; rewrite lookup_alter_eq, Ht; reflexivity|cbn; discriminate]].
      reflexivity.
    + cbn. rewrite lookup_alter_eq, Ht. reflexivity.
Qed.

(** [X14].  A withdrawal request whose amount is a decimal string,
    followed by the rejection of the transaction it created, brings the
    balance back to what it was: the debit at creation and the credit at
    rejection cancel. *)
Theorem rejected_withdrawal_restores_balance now1 now2 userId text currency wallet reason s u :
  users s !! userId = Some u ->
  5000 <= text_cents text <= balance u ->
  balance u < 10000000000 ->
  userId <> 0 ->
  transactions s !! transactions_seq s = None ->
  let s1 :=
    fst (post_withdraw decimal_column_min1 now1 userId (Str text) currency wallet reason s) in
  let s2 := fst (patch_reject now2 (transactions_seq s) s1) in
  balanceOf s1 userId = balance u - text_cents text /\
  balanceOf s2 userId = balance u /\
  (tx_status <$> transactions s2 !! transactions_seq s) = Some Rejected /\
  users s2 = <[userId := set_balance (balance u) now2 u]> (users s).
Proof.
  intros Hu [Hmin Hle] Hcol Hid Hfresh. cbn zeta.
  set (row := mkTransaction userId Withdrawal (text_cents text)
                (or_else currency (Some "USD"%string))
                (or_else wallet None) (or_else reason None) Pending now1).
  set (w := WUserBalance userId (balance u + - text_cents text) now1).
  assert (Hrun : post_withdraw decimal_column_min1 now1 userId (Str text) currency wallet
                   reason s =
    (record_engine w (replay [WInsertTransaction (transactions_seq s) row; w] s),
     (201, JTransaction (transactions_seq s) (Some row)))).
  { unfold post_withdraw, try_catch, negate.
    change (to_number (Str text)) with (text_cents text).
    destruct (Z.ltb_spec (text_cents text) 5000) as [?|_]; [lia|].
    erewrite bind_ok; [|unfold findFirst_user, bind, get, ret; reflexivity].
    rewrite Hu. destruct (Z.ltb_spec (balance u) (text_cents text)) as [?|_]; [lia|].
    erewrite bind_ok;
      [|apply (createTransaction_ok decimal_column_min1 now1 _ s u); cbn;
        try assumption; try reflexivity;
        change (to_number (Str text)) with (text_cents text); lia].
    erewrite bind_ok; [|apply updateUserBalance_ok; [cbn; exact Hu|lia]].
    reflexivity. }
  rewrite Hrun. cbn [fst].
  erewrite (patch_reject_pending now2 (transactions_seq s) _ row
              (set_balance (balance u + - text_cents text) now1 u));
    [|cbn; rewrite lookup_insert_eq; reflexivity|reflexivity|reflexivity
     |cbn; rewrite lookup_alter_eq, Hu; reflexivity|unfold set_balance; cbn; lia].
  cbn. split; [|split; [|split]].
  - unfold balanceOf. cbn. rewrite lookup_alter_eq, Hu. cbn. lia.
  - unfold balanceOf. cbn. rewrite !lookup_alter_eq, Hu. cbn. lia.
  - rewrite lookup_alter_eq, lookup_insert_eq. reflexivity.
  - apply map_eq. intros k. destruct (decide (userId = k)) as [<-|Hne].
    + rewrite !lookup_alter_eq, lookup_insert_eq, Hu. cbn. unfold set_balance. cbn.
      do 2 f_equal. lia.
    + rewrite !lookup_alter_ne by exact Hne. rewrite lookup_insert_ne by exact Hne.
      reflexivity.
Qed.

(** ** Instances *)

Lemma updateUserBalance_twice_witness :
  exists s1 s2 r1 r2,
    updateUserBalance 1 1 (Num 5000) sample_db = (s1, inr r1) /\
    updateUserBalance 2 1 (Num (-3000)) s1 = (s2, inr r2) /\
    balanceOf s2 1 = 12000 /\
    users s2 = users (fst (updateUserBalance 2 1 (Num 2000) sample_db)).
Proof.
  apply (updateUserBalance_twice 1 2 1 5000 (-3000) sample_db (mkUser 10000 RoleUser 0));
    [reflexivity|cbn; lia|cbn; lia].
Defined.

Lemma transaction_changes_once_witness :
  let t := mkTransaction 1 Withdrawal 6000 (Some "USD"%string) None None Pending 0 in
  let s' := serve decimal_column_min1 decimal_column_min1 sample_requests sample_db in
  transactions s' !! 1 = Some t \/
  (tx_type t = Withdrawal /\ tx_status t = Pending /\
   exists st now, (st = Completed \/ st = Rejected) /\
                  transactions s' !! 1 = Some (set_status st now t)).
Proof.
  apply (transaction_changes_once decimal_column_min1 decimal_column_min1 sample_requests
           sample_db 1).
  reflexivity.
Defined.

Lemma serials_stay_ahead_witness :
  let s' := serve decimal_column_min1 decimal_column_min1 sample_requests sample_db in
  serials_ahead s' /\
  transactions_seq sample_db <= transactions_seq s' /\
  investments_seq sample_db <= investments_seq s'.
Proof.
  apply (serials_stay_ahead decimal_column_min1 decimal_column_min1 sample_requests
           sample_db).
  apply (bool_decide_unpack (serials_ahead sample_db)). vm_compute. exact I.
Defined.


Lemma references_stay_valid_witness :
  references_hold
    (serve decimal_column_min1 decimal_column_min1
       (sample_requests ++ [Invest 5 1 1 (dollars 100)]) sample_db).
Proof.
  apply (references_stay_valid decimal_column_min1 decimal_column_min1
           (sample_requests ++ [Invest 5 1 1 (dollars 100)]) sample_db).
  apply (bool_decide_unpack (references_hold sample_db)). vm_compute. exact I.
Defined.

Lemma refused_request_changes_nothing_witness :
  fst (handle decimal_column_min1 decimal_column_min1
         (RequestWithdrawal 2 1 (dollars 200) None None None) sample_db) = sample_db.
Proof.
  pose proof (refused_request_changes_nothing decimal_column_min1 decimal_column_min1
                (RequestWithdrawal 2 1 (dollars 200) None None None) sample_db) as H.
  destruct (handle decimal_column_min1 decimal_column_min1
              (RequestWithdrawal 2 1 (dollars 200) None None None) sample_db)
    as [s' [code body]] eqn:Hrun.
  destruct H as [Hsame _]. cbn [fst]. apply Hsame.
  left. apply (f_equal (fun x => fst (snd x))) in Hrun. vm_compute in Hrun.
  symmetry. exact Hrun.
Defined.

Lemma settlement_needs_pending_withdrawal_witness :
  patch_approve 3 5 sample_db =
    (sample_db, (404, JMessage "Pending withdrawal request not found")) /\
  patch_reject 3 5 sample_db =
    (sample_db, (404, JMessage "Pending withdrawal request not found")).
Proof.
  apply (settlement_needs_pending_withdrawal 3 5 sample_db).
  intros t Ht. vm_compute in Ht. discriminate Ht.
Defined.

Lemma settled_withdrawal_is_final_witness :
  let s1 := fst (patch_approve 3 1 sample_db) in
  patch_reject 4 1 s1 = (s1, (404, JMessage "Pending withdrawal request not found")) /\
  balanceOf s1 1 = 10000 /\
  (tx_status <$> transactions (fst (patch_reject 3 1 sample_db)) !! 1) = Some Rejected.
Proof.
  destruct (settled_withdrawal_is_final 3 4 1 sample_db
              (mkTransaction 1 Withdrawal 6000 (Some "USD"%string) None None Pending 0))
    as [(Hagain & Husers & _) Hrej]; [reflexivity|reflexivity|reflexivity|].
  split; [exact Hagain|]. split; [unfold balanceOf; rewrite Husers; reflexivity|].
  destruct (Hrej (mkUser 10000 RoleUser 0)) as [_ Hst]; [reflexivity|cbn; lia|].
  exact Hst.
Defined.

Lemma rejected_withdrawal_restores_balance_witness :
  let s1 := fst (post_withdraw decimal_column_min1 2 1 (dollars 70) None None None
                   sample_db) in
  let s2 := fst (patch_reject 3 2 s1) in
  balanceOf s1 1 = 3000 /\ balanceOf s2 1 = 10000.
Proof.
  destruct (rejected_withdrawal_restores_balance 2 3 1
              (mkDecimalText false Seven [Zero] NoPoint) None None None sample_db
              (mkUser 10000 RoleUser 0)) as (H1 & H2 & _);
    [reflexivity|cbn; lia|cbn; lia|lia|reflexivity|].
  split; [exact H1|exact H2].
Defined.

(** ** Support chat *)

Import Chat.
Import Support.

Lemma update_chatMessage_ok messageId adminResponse aid st s m a :
  chatMessages s !! messageId = Some m ->
  users s !! aid = Some a ->
  update_chatMessage messageId adminResponse (Some aid) st s =
    (with_chatMessages (<[messageId := set_reply adminResponse aid st m]> (chatMessages s)) s,
     inr (Some (messageId, set_reply adminResponse aid st m))).
Proof.
  intros Hm Ha. unfold update_chatMessage, bind, get. cbn. rewrite Hm, Ha. reflexivity.
Qed.

(** [X15] (the [admin_reply] branch).  When the replying socket's [userId]
    parses to an existing user, whatever that user's role, and the author
    of the message is registered under the decimal string of its id with
    an open socket: the message becomes replied, with the response and the
    replier's id, one [admin_reply] frame carrying the updated row is
    appended to the author's socket, and no other socket receives
    anything. *)
Theorem admin_reply_reaches_sender userId aid a messageId m content ws sk srv :
  parseInt userId = Some aid ->
  users (db srv) !! aid = Some a ->
  chatMessages (db srv) !! messageId = Some m ->
  clients srv !! toString (msg_userId m) = Some ws ->
  sockets srv !! ws = Some sk ->
  readyState sk = OPEN ->
  let row := set_reply content aid Replied m in
  let srv' := admin_reply_branch userId messageId content srv in
  chatMessages (db srv') !! messageId = Some row /\
  sockets srv' !! ws = Some (mkSocket OPEN (sent sk ++ [admin_reply messageId row])) /\
  (forall other, other <> ws -> sockets srv' !! other = sockets srv !! other) /\
  clients srv' = clients srv /\
  console_errors srv' = console_errors srv.
Proof.
  intros Hp Ha Hm Hc Hs Ho. cbn zeta. unfold admin_reply_branch.
  rewrite Hp, (update_chatMessage_ok _ _ _ _ _ m a Hm Ha). cbn.
  rewrite Hc. unfold is_open. cbn. rewrite Hs, Ho.
  rewrite bool_decide_eq_true_2 by reflexivity. unfold send, with_db, with_chatMessages. cbn.
  rewrite lookup_insert_eq, lookup_alter_eq, Hs. cbn. rewrite Ho.
  repeat split. intros other Hne. apply lookup_alter_ne. congruence.
Qed.

(** [X16].  When the author of the message has no registered socket, or
    a socket that is not open, the reply is stored all the same and no
    frame is sent: the reply is found by the next poll. *)
Theorem admin_reply_without_live_socket userId aid a messageId m content srv :
  parseInt userId = Some aid ->
  users (db srv) !! aid = Some a ->
  chatMessages (db srv) !! messageId = Some m ->
  (forall ws, clients srv !! toString (msg_userId m) = Some ws -> is_open ws srv = false) ->
  let srv' := admin_reply_branch userId messageId content srv in
  chatMessages (db srv') !! messageId = Some (set_reply content aid Replied m) /\
  sockets srv' = sockets srv /\
  clients srv' = clients srv /\
  console_errors srv' = console_errors srv.
Proof.
  intros Hp Ha Hm Hoff. cbn zeta. unfold admin_reply_branch.
  rewrite Hp, (update_chatMessage_ok _ _ _ _ _ m a Hm Ha). cbn.
  destruct (clients srv !! toString (msg_userId m)) as [ws|] eqn:Hc.
  - specialize (Hoff ws eq_refl). unfold is_open in *. cbn. rewrite Hoff.
    unfold with_db, with_chatMessages. cbn. rewrite lookup_insert_eq. auto.
  - unfold with_db, with_chatMessages. cbn. rewrite lookup_insert_eq. auto.
Qed.

(** [X17].  A reply whose sender id does not parse, or does not name a
    user, or whose message id has no row, only increments the error log:
    database, registry and sockets are unchanged. *)
Theorem admin_reply_failure_is_logged userId messageId content srv :
  parseInt userId = None \/
  chatMessages (db srv) !! messageId = None \/
  (exists aid, parseInt userId = Some aid /\ users (db srv) !! aid = None) ->
  admin_reply_branch userId messageId content srv = console_error srv.
Proof.
  intros Hfail. unfold admin_reply_branch, update_chatMessage, bind, get, ret, throw.
  destruct srv as [d c so l n]. cbn.
  destruct (parseInt userId) as [aid|] eqn:Hp; [|reflexivity].
  destruct (chatMessages d !! messageId) as [m|] eqn:Hm; [|reflexivity].
  destruct (users d !! aid) as [a|] eqn:Ha; [|reflexivity].
  cbn in Hfail. destruct Hfail as [?|[?|(aid' & Haid & ?)]]; congruence.
Qed.

Lemma notify_admin_fold chatMessage (m : gmap string nat) srv0 :
  map_fold (notify_admin chatMessage) srv0 m = srv0.
Proof.
  induction m as [|k c m Hk Hfirst IH] using map_first_key_ind; [reflexivity|].
  rewrite map_fold_insert_first_key by assumption. exact IH.
Qed.

(** [X19].  Whatever frame arrives on whatever socket, the users (hence
    the balances), transactions, investments and plans are unchanged, and
    so are the registry and the listeners. *)
Theorem frames_never_touch_the_ledger ws frame srv :
  let srv' := on_message ws frame srv in
  users (db srv') = users (db srv) /\
  transactions (db srv') = transactions (db srv) /\
  investments (db srv') = investments (db srv) /\
  investmentPlans (db srv') = investmentPlans (db srv) /\
  clients srv' = clients srv /\
  listeners srv' = listeners srv.
Proof.
  cbn zeta. unfold on_message.
  destruct (listeners srv !! ws) as [userId|]; [|repeat split].
  destruct frame as [p|]; [|repeat split].
  case_bool_decide.
  - unfold chat_branch, insert_chatMessage, bind, get, ret, throw, exec, refuse.
    repeat case_match; simplify_eq/=; rewrite ?notify_admin_fold; repeat split.
  - destruct (pm_messageId p) as [mid|]; [|repeat split].
    destruct (_ && _); [|repeat split].
    unfold admin_reply_branch, update_chatMessage, bind, get, ret, throw.
    repeat case_match; simplify_eq/=; repeat split.
Qed.

Lemma messageStatus_of_replied : messageStatus_of "replied" = Some Replied.
Proof. reflexivity. Qed.

(** [X20] (POST /api/chat/messages, PATCH /api/admin/chat/messages/:id).
    When the tokens carry the ids of the user and of the administrator
    in [id]: a posted message is answered 201 and listed among the unread
    ones; after the administrator's reply (no status given) it is
    answered 200, is no longer listed as unread, and the author's own
    listing shows it replied with the response.  When the token of the
    author has no [id], as the tokens [generateToken] signs, the post is
    answered 500 and no row is stored. *)
Theorem posted_message_is_unread_until_replied userId u adminId a text response s :
  users s !! userId = Some u ->
  users s !! adminId = Some a ->
  chatMessages s !! chatMessages_seq s = None ->
  let id := chatMessages_seq s in
  let asked := mkChatMessage userId text Unread None None in
  let answered := mkChatMessage userId text Replied (Some response) (Some adminId) in
  let s1 := fst (post_chat_message (Some userId) (Some text) s) in
  let s2 := fst (patch_chat_message (Some adminId) id (Some response) None s1) in
  snd (post_chat_message (Some userId) (Some text) s) =
    (201, CChatMessage (Some (id, asked))) /\
  unread_messages s1 !! id = Some asked /\
  snd (patch_chat_message (Some adminId) id (Some response) None s1) =
    (200, CChatMessage (Some (id, answered))) /\
  unread_messages s2 !! id = None /\
  messages_of userId s2 !! id = Some answered /\
  snd (post_chat_message None (Some text) s) = (500, CMessage "Error sending message") /\
  chatMessages (fst (post_chat_message None (Some text) s)) = chatMessages s.
Proof.
  intros Hu Ha Hfresh. cbn zeta.
  unfold post_chat_message, insert_chatMessage, bind, get, ret, exec. cbn.
  rewrite Hfresh, Hu. cbn.
  unfold patch_chat_message, update_chatMessage, bind, get. cbn.
  rewrite messageStatus_of_replied, lookup_insert_eq, Ha. cbn.
  unfold unread_messages, messages_of. cbn.
  split; [reflexivity|]. split.
  { apply map_lookup_filter_Some. split; [apply lookup_insert_eq|reflexivity]. }
  split; [reflexivity|]. split; [|split; [|split; reflexivity]].
  - apply map_lookup_filter_None. right. intros x.
    rewrite lookup_insert_eq. intros [= <-]. cbn. discriminate.
  - apply map_lookup_filter_Some. split; [apply lookup_insert_eq|reflexivity].
Qed.

(** [X21].  PATCH on a message id without row answers 404; a status outside
    the enum, or a replier id without user row, answers 500; the database
    is unchanged in all three cases.  When the token of the replier has
    no [id], as the tokens [generateToken] signs, the message is updated
    and answered 200, and its [admin_id] stays as it was. *)
Theorem patch_chat_message_refusals adminId messageId adminResponse status s :
  (chatMessages s !! messageId = None ->
   patch_chat_message adminId messageId adminResponse status s =
     (s, (404, CMessage "Message not found"))) /\
  (forall st, status = Some st -> st <> ""%string -> messageStatus_of st = None ->
              is_Some (chatMessages s !! messageId) ->
   patch_chat_message adminId messageId adminResponse status s =
     (s, (500, CMessage "Error updating message"))) /\
  (forall aid, adminId = Some aid -> users s !! aid = None ->
               is_Some (chatMessages s !! messageId) ->
   patch_chat_message adminId messageId adminResponse status s =
     (s, (500, CMessage "Error updating message"))) /\
  (forall m st, adminId = None -> chatMessages s !! messageId = Some m ->
                messageStatus_of (default "replied"%string (or_else status None)) = Some st ->
   let row := set_answer adminResponse st m in
   patch_chat_message adminId messageId adminResponse status s =
     (with_chatMessages (<[messageId := row]> (chatMessages s)) s,
      (200, CChatMessage (Some (messageId, row)))) /\
   msg_adminId row = msg_adminId m).
Proof.
  unfold patch_chat_message. split; [|split; [|split]].
  - intros ->. reflexivity.
  - intros st -> Hne Hbad [m ->]. destruct st; [contradiction|]. cbn. rewrite Hbad.
    reflexivity.
  - intros aid -> Ha [m Hm]. rewrite Hm.
    destruct (messageStatus_of _); [|reflexivity].
    unfold update_chatMessage, bind, get, throw. cbn. rewrite Hm, Ha. reflexivity.
  - intros m st -> Hm Hst. rewrite Hm, Hst. split; reflexivity.
Qed.

(** ** The registry *)

(** [X22].  A connection whose URL has no [userId], or an empty one, is
    opened but not registered: the registry and the listeners are
    unchanged, every frame from it is ignored, and its close deletes
    nothing. *)
Theorem connection_without_userId_is_not_registered ws url srv :
  split_userId url = None \/ split_userId url = Some ""%string ->
  listeners srv !! ws = None ->
  let srv' := on_connection ws url srv in
  clients srv' = clients srv /\
  listeners srv' = listeners srv /\
  is_open ws srv' = true /\
  clients (on_close ws srv') = clients srv /\
  forall frame, on_message ws frame srv' = srv'.
Proof.
  intros Hurl Hnew. cbn zeta. unfold on_connection.
  assert (Hsrv : match split_userId url with
                 | Some (String a rest) =>
                     mkServer (db srv) (<[String a rest := ws]> (clients srv))
                       (<[ws := mkSocket OPEN []]> (sockets srv))
                       (<[ws := String a rest]> (listeners srv)) (console_errors srv)
                 | _ => mkServer (db srv) (clients srv)
                          (<[ws := mkSocket OPEN []]> (sockets srv)) (listeners srv)
                          (console_errors srv)
                 end =
                 mkServer (db srv) (clients srv) (<[ws := mkSocket OPEN []]> (sockets srv))
                   (listeners srv) (console_errors srv)).
  { destruct Hurl as [->| ->]; reflexivity. }
  rewrite Hsrv. unfold is_open, on_close, on_message. cbn.
  rewrite lookup_insert_eq, Hnew. auto.
Qed.

(** [X23].  Closing a socket removes at most the registry entry of the
    [userId] its listener captured; every other entry, every other socket
    and the database are unchanged. *)
Theorem close_is_local ws srv :
  let srv' := on_close ws srv in
  (forall userId, listeners srv !! ws <> Some userId ->
                  clients srv' !! userId = clients srv !! userId) /\
  (forall other, other <> ws -> sockets srv' !! other = sockets srv !! other) /\
  (readyState <$> sockets srv' !! ws) = (fun _ => CLOSED) <$> sockets srv !! ws /\
  db srv' = db srv.
Proof.
  cbn zeta. unfold on_close.
  destruct (listeners srv !! ws) as [uid|] eqn:Hl; cbn; repeat split; try done.
  - intros userId Hne. apply lookup_delete_ne. congruence.
  - intros other Hne. apply lookup_alter_ne. congruence.
  - rewrite lookup_alter_eq. destruct (sockets srv !! ws); reflexivity.
  - intros other Hne. apply lookup_alter_ne. congruence.
  - rewrite lookup_alter_eq. destruct (sockets srv !! ws); reflexivity.
Qed.

(** ** Administration *)

Import Admin.

(** [X24] (DELETE /api/admin/users/:id).  The answer is 200, with the user
    row removed, exactly when the id parses, the row exists and nothing
    refers to the user; in every other case it is 500 with the database
    unchanged.  It is never 404: a missing user makes [getUser] throw. *)
Theorem delete_user_outcome param s :
  delete_user param s =
    match parseInt param with
    | Some id =>
        match users s !! id with
        | Some _ =>
            if decide (user_is_referenced id s)
            then (s, (500, JMessage "Error deleting user"))
            else (with_users (delete id (users s)) s,
                  (200, JMessage "User deleted successfully"))
        | None => (s, (500, JMessage "Error deleting user"))
        end
    | None => (s, (500, JMessage "Error deleting user"))
    end /\
  fst (snd (delete_user param s)) <> 404.
Proof.
  unfold delete_user, try_catch, param_id, getUser, deleteUser, bind, get, ret, throw.
  destruct (parseInt param) as [id|]; [|split; [reflexivity|discriminate]].
  cbn. destruct (users s !! id); [|split; [reflexivity|discriminate]].
  destruct (decide (user_is_referenced id s)); split; try reflexivity; discriminate.
Qed.

Lemma serve_keeps_owner tschema ischema rs : forall s id t,
  transactions s !! id = Some t ->
  exists t', transactions (serve tschema ischema rs s) !! id = Some t' /\
             tx_userId t' = tx_userId t.
Proof.
  induction rs as [|r rs IH]; intros s id t Ht; [exists t; auto|].
  rewrite serve_cons.
  destruct (handle_transaction_step tschema ischema r s id t Ht)
    as [Hsame|(_ & _ & st & now & _ & Hnew)].
  - apply (IH _ _ _ Hsame).
  - destruct (IH _ _ _ Hnew) as (t' & Ht' & Hown). exists t'. split; [exact Ht'|].
    rewrite Hown. reflexivity.
Qed.

(** [X25].  A user who owns a transaction cannot be deleted, now or after
    any sequence of requests: the answer is 500 and nothing changes. *)
Theorem user_with_transaction_stays tschema ischema rs param id k t s :
  parseInt param = Some id ->
  transactions s !! k = Some t ->
  tx_userId t = id ->
  let s' := serve tschema ischema rs s in
  delete_user param s' = (s', (500, JMessage "Error deleting user")).
Proof.
  intros Hp Ht Hown. cbn zeta.
  destruct (serve_keeps_owner tschema ischema rs s k t Ht) as (t' & Ht' & Hown').
  unfold delete_user, try_catch, param_id, getUser, deleteUser, bind, get, ret, throw.
  rewrite Hp. cbn. destruct (users _ !! id); [|reflexivity].
  destruct (decide (user_is_referenced id _)) as [_|Hno]; [reflexivity|].
  exfalso. apply Hno. left. exists k, t'. split; [exact Ht'|congruence].
Qed.

(** [X26].  Deleting a user or a plan through the admin routes keeps every
    transaction and investment referring to existing rows. *)
Theorem deletions_keep_references param s :
  references_hold s ->
  references_hold (fst (delete_user param s)) /\
  references_hold (fst (delete_plan param s)).
Proof.
  intros [Htx Hinv]. unfold references_hold, map_Forall in *. split.
  - unfold delete_user, try_catch, param_id, getUser, deleteUser, bind, get, ret, throw.
    destruct (parseInt param) as [id|]; [|split; assumption]. cbn.
    destruct (users s !! id); [|split; assumption].
    destruct (decide (user_is_referenced id s)) as [|Hno]; [split; assumption|].
    cbn. split.
    + intros k t Ht. rewrite lookup_delete_is_Some. split; [|eauto].
      intros ->. apply Hno. left. exists k, t. auto.
    + intros k i Hi. split; [|apply (Hinv k i Hi)].
      rewrite lookup_delete_is_Some. split; [|apply (Hinv k i Hi)].
      intros ->. apply Hno. right. left. exists k, i. auto.
  - unfold delete_plan, try_catch, param_id, findFirst_plan, deleteInvestmentPlan, bind,
      get, ret, throw.
    destruct (parseInt param) as [id|]; [|split; assumption]. cbn.
    destruct (investmentPlans s !! id) as [plan|]; [|split; assumption].
    destruct (decide (plan_is_referenced id s)) as [|Hno]; [split; assumption|].
    cbn. split; [assumption|].
    intros k i Hi. split; [apply (Hinv k i Hi)|].
    rewrite lookup_delete_is_Some. split; [|apply (Hinv k i Hi)].
    intros ->. apply Hno. exists k, i. auto.
Qed.

(** [X27] ([isAdmin]).  The guard lets a request through, with payload [p],
    exactly when a token is present, the token it selects (second word of
    a non-empty Authorization header, else the cookie) verifies to [p],
    and the role in [p] is "admin". *)
Theorem isAdmin_passes_iff verify c p :
  isAdmin verify c = inr p <->
  truthy (authorization c) || truthy (cookie_token c) = true /\
  exists token, token_of c = Some token /\ verify token = Some p /\
                jwt_role p = "admin"%string.
Proof.
  unfold isAdmin.
  destruct (truthy (authorization c)) eqn:Hh, (truthy (cookie_token c)) eqn:Hk; cbn;
    try (split; [discriminate|intros [? _]; discriminate]).
  all: destruct (token_of c) as [token|];
    [|split; [discriminate|intros (_ & t & ? & _); discriminate]].
  all: destruct (verify token) as [decoded|] eqn:Hv.
  all: try (split; [discriminate|intros (_ & t & [= <-] & Hv' & _); congruence]).
  all: destruct (decide (jwt_role decoded <> "admin"%string)) as [Hne|Heq].
  all: try (split; [discriminate|intros (_ & t & [= <-] & Hv' & Hr); congruence]).
  all: apply dec_stable in Heq.
  all: split; [intros [= <-]; split; [reflexivity|]; exists token; auto
              |intros (_ & t & [= <-] & Hv' & _); congruence].
Qed.


(** ** Identities in URLs and frames *)

Import Decimal.

Lemma digit_of_pretty_N_char d :
  (d < 10)%N -> digit_of 10 (pretty_N_char d) = Some (Z.of_N d).
Proof.
  intros Hd.
  assert (d = 0 \/ d = 1 \/ d = 2 \/ d = 3 \/ d = 4 \/ d = 5 \/ d = 6 \/ d = 7 \/ d = 8 \/
          d = 9)%N as Hcases by lia.
  repeat (destruct Hcases as [->|Hcases]; [reflexivity|]). subst d. reflexivity.
Qed.

Lemma all_digits_pretty_N_go x : forall s,
  all_digits s = true -> all_digits (pretty_N_go x s) = true.
Proof.
  induction (N.lt_wf_0 x) as [x _ IH]. intros s Hs.
  destruct (decide (x = 0)%N) as [->|Hx]; [rewrite pretty_N_go_0; exact Hs|].
  rewrite pretty_N_go_step by lia. apply IH; [apply N.div_lt; lia|].
  cbn [all_digits]. rewrite Hs, digit_of_pretty_N_char by (apply N.mod_lt; lia).
  reflexivity.
Qed.

Lemma digits_pretty_N_go x : forall s,
  (0 < x)%N ->
  digits 10 (pretty_N_go x s) None = digits 10 s (Some (Z.of_N x)).
Proof.
  induction (N.lt_wf_0 x) as [x _ IH]. intros s Hx.
  rewrite pretty_N_go_step by exact Hx.
  destruct (decide (x `div` 10 = 0)%N) as [Hz|Hnz].
  - rewrite Hz, pretty_N_go_0. cbn [digits].
    rewrite digit_of_pretty_N_char by (apply N.mod_lt; lia). cbn.
    apply N.div_small_iff in Hz; [|lia]. rewrite N.mod_small by exact Hz. reflexivity.
  - rewrite IH by first [apply N.neq_0_lt_0; exact Hnz | apply N.div_lt; lia].
    cbn [digits].
    rewrite digit_of_pretty_N_char by (apply N.mod_lt; lia). cbn [default].
    f_equal. f_equal. rewrite N2Z.inj_div, N2Z.inj_mod.
    pose proof (Z.div_mod (Z.of_N x) 10 ltac:(lia)) as Hdm. cbn in Hdm |- *. lia.
Qed.

Lemma digit_is_decimal a :
  is_Some (digit_of 10 a) -> exists d, (d < 10)%N /\ a = pretty_N_char d.
Proof.
  intros H.
  assert (Hrange : (48 <= nat_of_ascii a <= 57)%nat).
  { unfold digit_of in H. destruct H as [v H].
    repeat case_match; simplify_eq; lia. }
  rewrite <- (ascii_nat_embedding a).
  exists (N.of_nat (nat_of_ascii a - 48)). split; [lia|].
  assert (nat_of_ascii a = 48 \/ nat_of_ascii a = 49 \/ nat_of_ascii a = 50 \/
          nat_of_ascii a = 51 \/ nat_of_ascii a = 52 \/ nat_of_ascii a = 53 \/
          nat_of_ascii a = 54 \/ nat_of_ascii a = 55 \/ nat_of_ascii a = 56 \/
          nat_of_ascii a = 57)%nat as Hcases by lia.
  repeat (destruct Hcases as [->|Hcases]; [reflexivity|]). rewrite Hcases. reflexivity.
Qed.

Ltac each_digit d Hd :=
  let Hcases := fresh "Hcases" in
  assert (d = 0 \/ d = 1 \/ d = 2 \/ d = 3 \/ d = 4 \/ d = 5 \/ d = 6 \/ d = 7 \/ d = 8 \/
          d = 9)%N as Hcases by lia;
  clear Hd;
  repeat (destruct Hcases as [->|Hcases]); [..|subst d].

Ltac same_digits :=
  unfold parseInt; cbv -[digits];
  match goal with
  | |- match ?x with Some _ => _ | None => _ end = _ => destruct x; reflexivity
  | |- _ => reflexivity
  end.

Lemma parseInt_all_digits s : all_digits s = true -> parseInt s = digits 10 s None.
Proof.
  destruct s as [|a r]; [reflexivity|]. cbn [all_digits]. intros H.
  apply andb_true_iff in H as [Ha Hr]. apply bool_decide_eq_true in Ha.
  destruct (digit_is_decimal a Ha) as (d & Hd & ->). clear Ha.
  each_digit d Hd; try same_digits.
  destruct r as [|b r']; [reflexivity|].
  cbn [all_digits] in Hr. apply andb_true_iff in Hr as [Hb Hr].
  apply bool_decide_eq_true in Hb.
  destruct (digit_is_decimal b Hb) as (e & He & ->). clear Hb.
  each_digit e He; same_digits.
Qed.

Lemma parseInt_decimal n : 0 <= n -> parseInt (Support.toString n) = Some n.
Proof.
  intros Hn. unfold Support.toString, pretty, pretty_Z.
  destruct n as [|p|p]; [reflexivity| |lia].
  unfold pretty, pretty_positive, pretty, pretty_N.
  destruct (decide (N.pos p = 0%N)) as [Hz|_]; [discriminate Hz|].
  rewrite parseInt_all_digits by (apply all_digits_pretty_N_go; reflexivity).
  rewrite digits_pretty_N_go by lia. reflexivity.
Qed.

Lemma toString_all_digits n : 0 <= n -> all_digits (Support.toString n) = true.
Proof.
  intros Hn. unfold Support.toString, pretty, pretty_Z.
  destruct n as [|p|p]; [reflexivity| |lia].
  unfold pretty, pretty_positive, pretty, pretty_N.
  destruct (decide (N.pos p = 0%N)) as [Hz|_]; [discriminate Hz|].
  apply all_digits_pretty_N_go. reflexivity.
Qed.

Lemma all_digits_lacks_question s : all_digits s = true -> lacks "?" s = true.
Proof.
  induction s as [|a r IH]; [reflexivity|]. cbn [all_digits lacks]. intros H.
  apply andb_true_iff in H as [Ha Hr]. apply bool_decide_eq_true in Ha.
  rewrite (IH Hr), andb_true_r.
  destruct (digit_is_decimal a Ha) as (d & Hd & ->).
  each_digit d Hd; reflexivity.
Qed.

Lemma prefix_needs_first a sep r : a <> "?"%char ->
  String.prefix (String "?" sep) (String a r) = false.
Proof.
  intros Hne.
  change (String.prefix (String "?" sep) (String a r))
    with (match ascii_dec "?" a with
          | left _ => String.prefix sep r
          | right _ => false
          end).
  destruct (ascii_dec "?" a) as [Heq|_]; [congruence|reflexivity].
Qed.

Lemma index_lacks_question s :
  lacks "?" s = true -> String.index 0 "?userId=" s = None.
Proof.
  induction s as [|a r IH]; [reflexivity|]. cbn [lacks]. intros H.
  apply andb_true_iff in H as [Ha Hr]. apply negb_true_iff, bool_decide_eq_false in Ha.
  cbn [String.index]. rewrite (prefix_needs_first a _ r Ha), (IH Hr). reflexivity.
Qed.

Lemma append_cons a s t : String a s +:+ t = String a (s +:+ t).
Proof. reflexivity. Qed.

Lemma prefix_cons a s1 s2 :
  String.prefix (String a s1) (String a s2) = String.prefix s1 s2.
Proof.
  change (String.prefix (String a s1) (String a s2))
    with (match ascii_dec a a with
          | left _ => String.prefix s1 s2
          | right _ => false
          end).
  destruct (ascii_dec a a) as [_|Hne]; [reflexivity|congruence].
Qed.

Lemma prefix_nil s : String.prefix "" s = true.
Proof. destruct s; reflexivity. Qed.

Lemma prefix_separator rest :
  String.prefix "?userId=" ("?userId=" +:+ rest) = true.
Proof.
  change ("?userId=" +:+ rest)
    with (String "?" (String "u" (String "s" (String "e" (String "r" (String "I"
           (String "d" (String "=" rest)))))))).
  rewrite !prefix_cons. apply prefix_nil.
Qed.

Lemma index_after_path path rest :
  lacks "?" path = true ->
  String.index 0 "?userId=" (path +:+ "?userId=" +:+ rest) = Some (String.length path).
Proof.
  induction path as [|a p IH]; intros H.
  - change ("" +:+ "?userId=" +:+ rest) with (String "?" ("userId=" +:+ rest)).
    cbn [String.index String.length].
    change (String "?" ("userId=" +:+ rest)) with ("?userId=" +:+ rest).
    rewrite prefix_separator. reflexivity.
  - cbn [lacks] in H. apply andb_true_iff in H as [Ha Hp].
    apply negb_true_iff, bool_decide_eq_false in Ha.
    rewrite append_cons. cbn [String.index String.length].
    rewrite (prefix_needs_first a _ _ Ha), (IH Hp). reflexivity.
Qed.

Lemma substring_all s : String.substring 0 (String.length s) s = s.
Proof. induction s as [|a r IH]; [reflexivity|]. cbn. rewrite IH. reflexivity. Qed.

Lemma substring_after_path path rest n m :
  String.substring (String.length path + n) m (path +:+ rest) = String.substring n m rest.
Proof.
  induction path as [|a p IH]; [reflexivity|]. rewrite append_cons. cbn. exact IH.
Qed.

Lemma length_append_path path rest :
  String.length (path +:+ rest) = (String.length path + String.length rest)%nat.
Proof.
  induction path as [|a p IH]; [reflexivity|]. rewrite append_cons. cbn.
  rewrite IH. reflexivity.
Qed.

Lemma split_userId_after_path path id :
  lacks "?" path = true -> lacks "?" id = true ->
  split_userId (path +:+ "?userId=" +:+ id) = Some id.
Proof.
  intros Hpath Hid. unfold split_userId.
  rewrite (index_after_path path id Hpath).
  rewrite length_append_path.
  change (String.length ("?userId=" +:+ id)) with (8 + String.length id)%nat.
  change (String.length "?userId=") with 8%nat.
  replace (String.length path + (8 + String.length id) - (String.length path + 8))%nat
    with (String.length id) by lia.
  rewrite (substring_after_path path ("?userId=" +:+ id) 8).
  change (String.substring 8 (String.length id) ("?userId=" +:+ id))
    with (String.substring 0 (String.length id) id).
  rewrite substring_all, (index_lacks_question id Hid). reflexivity.
Qed.

Lemma toString_not_empty n : 0 <= n -> Support.toString n <> ""%string.
Proof.
  intros Hn Hempty. pose proof (parseInt_decimal n Hn) as H.
  rewrite Hempty in H. discriminate H.
Qed.

(** [X29].  A connection on [path?userId=id], where neither [path] nor [id]
    contains a question mark and [id] is not empty, is registered under
    [id]: the lookup of [id] gives this socket, which is open. *)
Theorem connection_registers_query_id path id ws srv :
  lacks "?" path = true -> lacks "?" id = true -> id <> ""%string ->
  let srv' := on_connection ws (path +:+ "?userId=" +:+ id) srv in
  split_userId (path +:+ "?userId=" +:+ id) = Some id /\
  lookup_client id srv' = Some ws /\
  listeners srv' !! ws = Some id /\
  is_open ws srv' = true.
Proof.
  intros Hpath Hid Hne. cbn zeta. unfold on_connection, lookup_client, is_open.
  rewrite (split_userId_after_path path id Hpath Hid).
  destruct id as [|c rest]; [contradiction|]. cbn.
  rewrite !lookup_insert_eq. auto.
Qed.

(** [X30].  A user connects with the decimal string of its id and sends a
    chat frame; a second socket, registered under the id of an existing
    user, sends an [admin_reply] frame for that message.  The message is
    first stored unread, then replied, and exactly one frame, the reply,
    has been sent on the user's socket. *)
Theorem question_reaches_admin_and_answer_returns path uid u text response ws wa adminKey
    aid a srv :
  lacks "?" path = true ->
  0 <= uid ->
  users (db srv) !! uid = Some u ->
  chatMessages (db srv) !! chatMessages_seq (db srv) = None ->
  chatMessages_seq (db srv) <> 0 ->
  wa <> ws ->
  listeners srv !! wa = Some adminKey ->
  parseInt adminKey = Some aid ->
  users (db srv) !! aid = Some a ->
  let id := chatMessages_seq (db srv) in
  let answered := mkChatMessage uid text Replied (Some response) (Some aid) in
  let srv1 := on_connection ws (path +:+ "?userId=" +:+ Support.toString uid) srv in
  let srv2 :=
    Support.on_message ws
      (Some (Support.mkParsedMessage (Some "chat"%string) (Some text) None)) srv1 in
  let srv3 :=
    Support.on_message wa
      (Some (Support.mkParsedMessage (Some "admin_reply"%string) (Some response) (Some id)))
      srv2 in
  chatMessages (db srv2) !! id = Some (mkChatMessage uid text Unread None None) /\
  chatMessages (db srv3) !! id = Some answered /\
  (sent <$> sockets srv3 !! ws) = Some [admin_reply id answered].
Proof.
  intros Hpath Huid Hu Hfresh Hseq Hne Hl Hp Ha. cbn zeta.
  pose proof (toString_not_empty uid Huid) as Hk.
  pose proof (parseInt_decimal uid Huid) as Hparse.
  pose proof (all_digits_lacks_question _ (toString_all_digits uid Huid)) as Hlacks.
  destruct srv as [d cl so li n]. cbn [db clients sockets listeners console_errors] in *.
  assert (H1 : on_connection ws (path +:+ "?userId=" +:+ Support.toString uid)
                 (mkServer d cl so li n) =
               mkServer d (<[Support.toString uid := ws]> cl)
                 (<[ws := mkSocket OPEN []]> so) (<[ws := Support.toString uid]> li) n).
  { unfold on_connection. rewrite (split_userId_after_path path _ Hpath Hlacks).
    destruct (Support.toString uid); [contradiction|reflexivity]. }
  rewrite H1. clear H1.
  set (asked := mkChatMessage uid text Unread None None).
  set (d1 := replay [WInsertChatMessage (chatMessages_seq d) asked] d).
  assert (H2 : Support.on_message ws
                 (Some (Support.mkParsedMessage (Some "chat"%string) (Some text) None))
                 (mkServer d (<[Support.toString uid := ws]> cl)
                    (<[ws := mkSocket OPEN []]> so) (<[ws := Support.toString uid]> li) n) =
               mkServer d1 (<[Support.toString uid := ws]> cl)
                 (<[ws := mkSocket OPEN []]> so) (<[ws := Support.toString uid]> li) n).
  { unfold Support.on_message. cbn [listeners]. rewrite lookup_insert_eq.
    rewrite bool_decide_eq_true_2 by reflexivity. cbn [Support.pm_content].
    unfold chat_branch, insert_chatMessage, bind, get, ret, exec.
    cbn [db clients sockets listeners console_errors]. rewrite Hparse, Hfresh, Hu.
    cbn [fst snd]. rewrite notify_admin_fold. reflexivity. }
  rewrite H2. clear H2.
  split; [cbn; apply lookup_insert_eq|].
  unfold Support.on_message. cbn [listeners]. rewrite lookup_insert_ne by congruence.
  rewrite Hl. cbn [Support.pm_type Support.pm_messageId Support.pm_content].
  rewrite bool_decide_eq_false_2 by discriminate.
  rewrite bool_decide_eq_true_2 by reflexivity.
  destruct (Z.eqb_spec (chatMessages_seq d) 0) as [?|_]; [contradiction|]. cbn [andb negb].
  unfold Support.admin_reply_branch, Support.update_chatMessage, bind, get, ret.
  cbn [db clients sockets listeners console_errors]. rewrite Hp.
  assert (Hrow : chatMessages d1 !! chatMessages_seq d = Some asked)
    by (cbn; apply lookup_insert_eq).
  assert (Hadm : users d1 !! aid = Some a) by exact Ha.
  rewrite Hrow, Hadm.
  cbn [fst snd Support.with_db Support.set_reply msg_userId asked db clients sockets
       listeners console_errors].
  assert (Hc : <[Support.toString uid := ws]> cl !! Support.toString uid = Some ws)
    by apply lookup_insert_eq.
  assert (Hs : <[ws := mkSocket OPEN []]> so !! ws = Some (mkSocket OPEN []))
    by apply lookup_insert_eq.
  rewrite Hc. unfold is_open, Support.with_db, Support.with_chatMessages.
  cbn [sockets db chatMessages]. rewrite Hs.
  cbn [readyState]. rewrite bool_decide_eq_true_2 by reflexivity.
  unfold send. cbn [db sockets chatMessages].
  rewrite lookup_insert_eq, lookup_alter_eq, Hs. auto.
Qed.

Lemma admin_reply_reaches_sender_witness :
  let row := mkChatMessage 1 "hello" Replied (Some "hi"%string) (Some 2) in
  let srv' := Support.admin_reply_branch "2" 1 (Some "hi"%string) asked_server in
  chatMessages (db srv') !! 1 = Some row /\
  sockets srv' !! 8%nat = Some (mkSocket OPEN [admin_reply 1 row]).
Proof.
  destruct (admin_reply_reaches_sender "2" 2 (mkUser 0 RoleAdmin 0) 1
              (mkChatMessage 1 "hello" Unread None None) (Some "hi"%string) 8%nat
              (mkSocket OPEN []) asked_server) as (Hrow & Hsock & _);
    [reflexivity|reflexivity|reflexivity|reflexivity|reflexivity|reflexivity|].
  split; [exact Hrow|exact Hsock].
Defined.

Lemma admin_reply_without_live_socket_witness :
  let srv' := Support.admin_reply_branch "2" 1 (Some "hi"%string) offline_server in
  chatMessages (db srv') !! 1 =
    Some (mkChatMessage 1 "hello" Replied (Some "hi"%string) (Some 2)) /\
  sockets srv' = sockets offline_server.
Proof.
  destruct (admin_reply_without_live_socket "2" 2 (mkUser 0 RoleAdmin 0) 1
              (mkChatMessage 1 "hello" Unread None None) (Some "hi"%string) offline_server)
    as (Hrow & Hsock & _);
    [reflexivity|reflexivity|reflexivity|intros ws Hws; discriminate Hws|].
  split; [exact Hrow|exact Hsock].
Defined.

Lemma admin_reply_failure_is_logged_witness :
  Support.admin_reply_branch "admin" 1 (Some "hi"%string) asked_server =
    Support.console_error asked_server.
Proof.
  apply (admin_reply_failure_is_logged "admin" 1 (Some "hi"%string) asked_server).
  left. reflexivity.
Defined.

Lemma posted_message_is_unread_until_replied_witness :
  let s1 := fst (Support.post_chat_message (Some 1) (Some "hello"%string) sample_db) in
  let s2 := fst (Support.patch_chat_message (Some 2) 1 (Some "hi"%string) None s1) in
  Support.unread_messages s1 !! 1 = Some (mkChatMessage 1 "hello" Unread None None) /\
  Support.unread_messages s2 !! 1 = None /\
  Support.messages_of 1 s2 !! 1 =
    Some (mkChatMessage 1 "hello" Replied (Some "hi"%string) (Some 2)) /\
  snd (Support.post_chat_message None (Some "hello"%string) sample_db) =
    (500, Support.CMessage "Error sending message").
Proof.
  destruct (posted_message_is_unread_until_replied 1 (mkUser 10000 RoleUser 0) 2
              (mkUser 0 RoleAdmin 0) "hello" "hi" sample_db)
    as (_ & H1 & _ & H2 & H3 & H4 & _); [reflexivity|reflexivity|reflexivity|].
  split; [exact H1|]. split; [exact H2|]. split; [exact H3|exact H4].
Defined.

Lemma patch_chat_message_refusals_witness :
  Support.patch_chat_message (Some 9) 1 (Some "hi"%string) None (db asked_server) =
    (db asked_server, (500, Support.CMessage "Error updating message")) /\
  (msg_adminId <$>
     chatMessages (fst (Support.patch_chat_message None 1 (Some "hi"%string) None
                          (db asked_server))) !! 1) = Some None.
Proof.
  destruct (patch_chat_message_refusals (Some 9) 1 (Some "hi"%string) None (db asked_server))
    as (_ & _ & Hmissing & _).
  destruct (patch_chat_message_refusals None 1 (Some "hi"%string) None (db asked_server))
    as (_ & _ & _ & Hnone).
  split.
  - apply (Hmissing 9); [reflexivity|reflexivity|].
    exists (mkChatMessage 1 "hello" Unread None None). reflexivity.
  - destruct (Hnone (mkChatMessage 1 "hello" Unread None None) Replied) as [Hrun _];
      [reflexivity|reflexivity|reflexivity|].
    rewrite Hrun. cbn. rewrite lookup_insert_eq. reflexivity.
Defined.

Lemma connection_without_userId_is_not_registered_witness :
  let srv' := on_connection 9 "/ws" sample_server in
  clients srv' = clients sample_server /\
  clients (on_close 9 srv') = clients sample_server.
Proof.
  destruct (connection_without_userId_is_not_registered 9 "/ws" sample_server)
    as (H1 & _ & _ & H2 & _); [left; reflexivity|reflexivity|].
  split; [exact H1|exact H2].
Defined.

Lemma user_with_transaction_stays_witness :
  let s' := serve decimal_column_min1 decimal_column_min1 sample_requests sample_db in
  Admin.delete_user "1" s' = (s', (500, JMessage "Error deleting user")).
Proof.
  apply (user_with_transaction_stays decimal_column_min1 decimal_column_min1 sample_requests "1" 1 1
           (mkTransaction 1 Withdrawal 6000 (Some "USD"%string) None None Pending 0)
           sample_db); reflexivity.
Defined.

Lemma deletions_keep_references_witness :
  references_hold (fst (Admin.delete_user "3" sample_db)) /\
  references_hold (fst (Admin.delete_plan "1" sample_db)) /\
  users (fst (Admin.delete_user "3" sample_db)) !! 3 = None.
Proof.
  destruct (deletions_keep_references "3" sample_db) as [H1 _].
  { apply (bool_decide_unpack (references_hold sample_db)). vm_compute. exact I. }
  destruct (deletions_keep_references "1" sample_db) as [_ H2].
  { apply (bool_decide_unpack (references_hold sample_db)). vm_compute. exact I. }
  split; [exact H1|]. split; [exact H2|]. vm_compute. reflexivity.
Defined.

Lemma connection_registers_query_id_witness :
  lookup_client "12" (on_connection 9 "/ws?userId=12" sample_server) = Some 9%nat.
Proof.
  destruct (connection_registers_query_id "/ws" "12" 9 sample_server) as (_ & H & _);
    [reflexivity|reflexivity|discriminate|].
  exact H.
Defined.

Lemma question_reaches_admin_and_answer_returns_witness :
  let answered := mkChatMessage 1 "hello" Replied (Some "hi"%string) (Some 2) in
  let srv0 := on_connection 7 "/ws?userId=2" (mkServer sample_db ∅ ∅ ∅ 0) in
  let srv1 := on_connection 8 "/ws?userId=1" srv0 in
  let srv2 :=
    Support.on_message 8
      (Some (Support.mkParsedMessage (Some "chat"%string) (Some "hello"%string) None))
      srv1 in
  let srv3 :=
    Support.on_message 7
      (Some (Support.mkParsedMessage (Some "admin_reply"%string) (Some "hi"%string)
               (Some 1))) srv2 in
  chatMessages (db srv3) !! 1 = Some answered /\
  (sent <$> sockets srv3 !! 8%nat) = Some [admin_reply 1 answered].
Proof.
  destruct (question_reaches_admin_and_answer_returns "/ws" 1 (mkUser 10000 RoleUser 0)
              "hello" "hi" 8%nat 7%nat "2" 2 (mkUser 0 RoleAdmin 0)
              (on_connection 7 "/ws?userId=2" (mkServer sample_db ∅ ∅ ∅ 0)))
    as (_ & H2 & H3);
    [reflexivity|lia|reflexivity|reflexivity|discriminate|lia|reflexivity|reflexivity
    |reflexivity|].
  split; [exact H2|exact H3].
Defined.
